(** * FurnitureFlip backend: comps and price recommendation

    A shallow embedding of [src/backend/main.py] (price extraction, comp
    assembly, price recommendation) and of the CSE helper of
    [src/frontend/app.py], with the properties of the specification that
    concern them.

    Conventions of the embedding:
    - a Python [float] is an IEEE-754 binary64 value, [spec_float] at
      precision 53 and exponent bound 1024, with the operations of
      [SpecFloat];
    - a Python [str] is a [string] whose characters are the code points
      U+0000 .. U+00FF;
    - a raised exception is the [Raise] case of [result];
    - the network and the two numeric routines whose last bits depend on
      the interpreter and on libm ([sum], [pow]) are arguments of the
      functions that use them. *)

From Stdlib Require Import ZArith List String Ascii Bool Lia.
From Stdlib Require Import SpecFloat DecimalString.
Import ListNotations.

Local Open Scope string_scope.
Local Open Scope Z_scope.

(** ** Python floats *)

Module Float64.

Definition prec : Z := 53.
Definition emax : Z := 1024.

Definition float : Type := spec_float.

Definition add : float -> float -> float := SFadd prec emax.
Definition sub : float -> float -> float := SFsub prec emax.
Definition mul : float -> float -> float := SFmul prec emax.
Definition div : float -> float -> float := SFdiv prec emax.
Definition sqrt : float -> float := SFsqrt prec emax.
Definition abs : float -> float := SFabs.

Definition eqb : float -> float -> bool := SFeqb.
Definition ltb : float -> float -> bool := SFltb.
Definition leb : float -> float -> bool := SFleb.
(** [a > b] and [a >= b] of Python *)
Definition gtb (a b : float) : bool := ltb b a.
Definition geb (a b : float) : bool := leb b a.

Definition is_finite (x : float) : bool :=
  match x with
  | S754_zero _ | S754_finite _ _ _ => true
  | _ => false
  end.

Definition pzero : float := S754_zero false.

(** The double nearest to the rational [n / d] (ties to even), with sign
    [s]: what [float("...")] and a float literal of the source denote. The
    division of [SpecFloat] is exact on the two integers before it rounds,
    whatever their size. *)
Definition of_ratio (s : bool) (n d : positive) : float :=
  SFdiv prec emax (S754_finite s n 0) (S754_finite false d 0).

(** [float(n)] for an integer [n]. *)
Definition of_Z (n : Z) : float := binary_normalize prec emax n 0 false.

(** The decimal [n / 10^k], as the source writes [0.85] or [29.75]. *)
Definition dec (n : Z) (k : nat) : float :=
  let d := Z.to_pos (10 ^ Z.of_nat k) in
  match n with
  | Z0 => pzero
  | Zpos p => of_ratio false p d
  | Zneg p => of_ratio true p d
  end.

(** [bool(x)]: every float but the two zeros is true. *)
Definition truthy (x : float) : bool := negb (eqb x pzero).

(** Nearest integer to [a / b], ties to even, for [0 <= a]. *)
Definition div_half_even (a : Z) (b : positive) : Z :=
  let q := a / Zpos b in
  let r := a mod Zpos b in
  match (2 * r ?= Zpos b) with
  | Lt => q
  | Gt => q + 1
  | Eq => if Z.even q then q else q + 1
  end.

(** Nearest integer to [m * 2^e * k], ties to even. *)
Definition scaled_half_even (m : positive) (e : Z) (k : Z) : Z :=
  match e with
  | Zneg p => div_half_even (Zpos m * k) (Pos.pow 2 p)
  | _ => Zpos m * k * 2 ^ e
  end.

(** [round(x, 2)]: the exact value of [x] is rounded to two decimals
    (ties to even) and the decimal obtained is read back as a double;
    infinities and NaN are returned unchanged. *)
Definition round2 (x : float) : float :=
  match x with
  | S754_finite s m e =>
      match scaled_half_even m e 100 with
      | Zpos n => of_ratio s n 100
      | _ => S754_zero s
      end
  | _ => x
  end.

(** [max(a, b)] and [min(a, b)] of Python: the first argument is kept
    unless the second compares strictly beyond it. *)
Definition max2 (a b : float) : float := if gtb b a then b else a.
Definition min2 (a b : float) : float := if ltb b a then b else a.

(** [max(l)] and [min(l)] on a non-empty list [x :: l]. *)
Definition max_list (x : float) (l : list float) : float := fold_left max2 l x.
Definition min_list (x : float) (l : list float) : float := fold_left min2 l x.

(** [format(x, ".0f")] *)
Definition format_0f (x : float) : string :=
  match x with
  | S754_nan => "nan"
  | S754_infinity s => if s then "-inf" else "inf"
  | S754_zero s => if s then "-0" else "0"
  | S754_finite s m e =>
      (if s then "-" else "") ++
      NilZero.string_of_uint (N.to_uint (Z.to_N (scaled_half_even m e 1)))
  end.

End Float64.

Import Float64.

(** ** Exceptions *)

Inductive exn : Type :=
| Timeout                    (* requests.exceptions.Timeout *)
| ConnectionError            (* requests.exceptions.ConnectionError *)
| HTTPError (status : Z)     (* raised by raise_for_status *)
| JSONDecodeError            (* raised by r.json() *)
| AttributeError
| TypeError
| ValueError
| OverflowError.

Inductive result (A : Type) : Type :=
| Ok (a : A)
| Raise (e : exn).
Arguments Ok {A} a.
Arguments Raise {A} e.

Definition bind {A B : Type} (r : result A) (f : A -> result B) : result B :=
  match r with
  | Ok a => f a
  | Raise e => Raise e
  end.

Notation "x <- r ;; k" := (bind r (fun x => k))
  (at level 61, r at next level, right associativity).

(** A [for] loop that builds a list and stops at the first exception. *)
Fixpoint for_each {A B : Type} (f : A -> result B) (l : list A) : result (list B) :=
  match l with
  | [] => Ok []
  | a :: l' => b <- f a ;; bs <- for_each f l' ;; Ok (b :: bs)
  end.

(** ** Python values that come out of [json] *)

Local Unset Elimination Schemes.
Inductive json : Type :=
| JNull
| JBool (b : bool)
| JInt (z : Z)
| JFloat (f : float)
| JStr (s : string)
| JArr (l : list json)
| JObj (m : list (string * json)).
Local Set Elimination Schemes.

(** [bool(v)] *)
Definition py_truthy (v : json) : bool :=
  match v with
  | JNull => false
  | JBool b => b
  | JInt z => negb (z =? 0)
  | JFloat f => truthy f
  | JStr s => negb (s =? "")%string
  | JArr l => match l with [] => false | _ => true end
  | JObj m => match m with [] => false | _ => true end
  end.

(** [d.get(key, default)] on the items of a dict *)
Fixpoint dict_get (m : list (string * json)) (key : string) (default : json) : json :=
  match m with
  | [] => default
  | (k, v) :: m' => if (k =? key)%string then v else dict_get m' key default
  end.

(** [a or b] *)
Definition py_or (a b : json) : json := if py_truthy a then a else b.

(** ** Strings *)

Definition code (c : ascii) : N := N_of_ascii c.

(** [c.isdigit()], which is also [\d] of [re] on these code points *)
Definition is_digit (c : ascii) : bool :=
  ((48 <=? code c) && (code c <=? 57))%N.

(** [c.isspace()], which is also [\s] of [re] on a [str] pattern *)
Definition is_space (c : ascii) : bool :=
  let n := code c in
  (((9 <=? n) && (n <=? 13)) || ((28 <=? n) && (n <=? 32))
   || (n =? 133) || (n =? 160))%N.

Definition lower_char (c : ascii) : ascii :=
  let n := code c in
  if (((65 <=? n) && (n <=? 90))
      || ((192 <=? n) && (n <=? 222) && negb (n =? 215)))%N
  then ascii_of_N (n + 32) else c.

(** [s.lower()] *)
Fixpoint lower (s : string) : string :=
  match s with
  | EmptyString => EmptyString
  | String c s' => String (lower_char c) (lower s')
  end.

(** Every character of [s] is in the class [P]. *)
Fixpoint every (P : ascii -> bool) (s : string) : bool :=
  match s with
  | EmptyString => true
  | String c s' => P c && every P s'
  end.

(** [s.replace(c, "")] for a one-character [c] *)
Fixpoint remove_char (c : ascii) (s : string) : string :=
  match s with
  | EmptyString => EmptyString
  | String a s' =>
      if Ascii.eqb a c then remove_char c s' else String a (remove_char c s')
  end.

Fixpoint lstrip (s : string) : string :=
  match s with
  | String c s' => if is_space c then lstrip s' else s
  | EmptyString => EmptyString
  end.

Fixpoint rstrip (s : string) : string :=
  match s with
  | EmptyString => EmptyString
  | String c s' =>
      match rstrip s' with
      | EmptyString => if is_space c then EmptyString else String c EmptyString
      | t => String c t
      end
  end.

(** [s.strip()] *)
Definition strip (s : string) : string := rstrip (lstrip s).

(** [x in (a, b, ...)] for strings *)
Definition str_in (x : string) (l : list string) : bool :=
  existsb (String.eqb x) l.

(** ** Regular expressions

    A pattern is a backtracking matcher in continuation style: it is given
    what must match after it and the text at the current position, and
    answers the text matched from that position on, the first one in the
    order in which [re] tries the alternatives (greedy repetitions first). *)

Module Re.

Definition cont : Type := string -> option string.
Definition t : Type := cont -> cont.

Definition accept : cont := fun _ => Some EmptyString.

Definition first_of (a b : option string) : option string :=
  match a with
  | Some m => Some m
  | None => b
  end.

(** a literal character *)
Definition chr (c : ascii) : t := fun k s =>
  match s with
  | String a s' => if Ascii.eqb a c then option_map (String a) (k s') else None
  | EmptyString => None
  end.

(** [r1 r2] *)
Definition seq (r1 r2 : t) : t := fun k => r1 (r2 k).

(** [(?:r)?] *)
Definition opt (r : t) : t := fun k s => first_of (r k s) (k s).

(** [C*] for a character class [C] *)
Fixpoint star (C : ascii -> bool) (k : cont) (s : string) : option string :=
  match s with
  | String a s' =>
      if C a then first_of (option_map (String a) (star C k s')) (k s)
      else k s
  | EmptyString => k s
  end.

(** At most [extra] more characters of the class [C], as many as can be. *)
Fixpoint upto (C : ascii -> bool) (extra : nat) (k : cont) (s : string)
  : option string :=
  match extra with
  | O => k s
  | S extra' =>
      match s with
      | String a s' =>
          if C a then first_of (option_map (String a) (upto C extra' k s')) (k s)
          else k s
      | EmptyString => k s
      end
  end.

(** Exactly [n] characters of the class [C]. *)
Fixpoint exactly (C : ascii -> bool) (n : nat) (k : cont) (s : string)
  : option string :=
  match n with
  | O => k s
  | S n' =>
      match s with
      | String a s' =>
          if C a then option_map (String a) (exactly C n' k s') else None
      | EmptyString => None
      end
  end.

(** [C{lo,hi}] for a character class [C] *)
Definition rep (C : ascii -> bool) (lo hi : nat) : t :=
  seq (exactly C lo) (upto C (hi - lo)).

(** [p.search(s)]: the match at the leftmost position that has one *)
Fixpoint search (r : t) (s : string) : option string :=
  match r accept s with
  | Some m => Some m
  | None =>
      match s with
      | String _ s' => search r s'
      | EmptyString => None
      end
  end.

End Re.

(** ** Helpers of [main.py] *)

(** [PRICE_RE = re.compile(r"(\$?\s*\d{1,5}(?:\.\d{1,2})?)")] *)
Definition PRICE_RE : Re.t :=
  Re.seq (Re.opt (Re.chr "$"))
    (Re.seq (Re.star is_space)
       (Re.seq (Re.rep is_digit 1 5)
          (Re.opt (Re.seq (Re.chr ".") (Re.rep is_digit 1 2))))).

Definition digit_value (c : ascii) : Z := Z.of_N (code c) - 48.

Fixpoint digits_value (acc : Z) (s : string) : Z :=
  match s with
  | EmptyString => acc
  | String c s' => digits_value (10 * acc + digit_value c) s'
  end.

Definition all_digits (s : string) : bool := every is_digit s.

(** The text before the first [.] and the text after it, if there is one. *)
Fixpoint split_point (s : string) : string * option string :=
  match s with
  | EmptyString => (EmptyString, None)
  | String c s' =>
      if Ascii.eqb c "." then (EmptyString, Some s')
      else let (a, b) := split_point s' in (String c a, b)
  end.

(** [float(s)] on an unsigned decimal numeral, digits with an optional
    fraction, which is all that [PRICE_RE] lets through to it; [None] stands
    for the [ValueError] of any other text. *)
Definition float_of_numeral (s : string) : option float :=
  match split_point s with
  | (i, None) =>
      if negb (i =? "")%string && all_digits i
      then Some (dec (digits_value 0 i) 0) else None
  | (i, Some f) =>
      if negb (i =? "")%string && all_digits i
         && negb (f =? "")%string && all_digits f
      then Some (dec (digits_value 0 (i ++ f)) (String.length f)) else None
  end.

(** [safe_float] on the text of a match: the [ValueError] is turned into
    [None]. *)
Definition safe_float (x : string) : option float := float_of_numeral x.

(** [extract_price_from_text]; a text that is neither false nor a [str] has
    no [replace] method. *)
Definition extract_price_from_text (text : json) : result (option float) :=
  if negb (py_truthy text) then Ok None
  else
    match text with
    | JStr s =>
        match Re.search PRICE_RE (remove_char "," s) with
        | None => Ok None
        | Some m => Ok (safe_float (strip (remove_char "$" m)))
        end
    | _ => Raise AttributeError
    end.

(** ** Configuration and network *)

(** The module-level flags read from the environment. *)
Record Config : Type := {
  ENABLE_LIVE_COMPS : bool;
  GOOGLE_CSE_API_KEY : string;
  GOOGLE_CSE_CX : string
}.

(** Live lookup switched off. *)
Definition offline (key cx : string) : Config :=
  {| ENABLE_LIVE_COMPS := false; GOOGLE_CSE_API_KEY := key; GOOGLE_CSE_CX := cx |}.

Definition configured (cfg : Config) : bool :=
  negb (GOOGLE_CSE_API_KEY cfg =? "")%string && negb (GOOGLE_CSE_CX cfg =? "")%string.

(** The arguments of a [requests.get] call. *)
Record request : Type := {
  req_url : string;
  req_key : string;
  req_cx : string;
  req_q : string;
  req_num : Z;
  req_timeout : Z
}.

(** What a [requests.get] call does: it raises (timeout, connection
    failure), or answers a status code and a body, which is [None] when the
    body is not JSON. *)
Inductive http_outcome : Type :=
| NetFail (e : exn)
| Response (status : Z) (body : option json).

Definition network : Type := request -> http_outcome.

Definition cse_endpoint : string := "https://www.googleapis.com/customsearch/v1".

(** [r.raise_for_status()] *)
Definition raise_for_status (status : Z) : result unit :=
  if (400 <=? status) && (status <? 600) then Raise (HTTPError status) else Ok tt.

(** [r.json()] *)
Definition response_json (body : option json) : result json :=
  match body with
  | Some data => Ok data
  | None => Raise JSONDecodeError
  end.

(** [v.get(key, default)] on an arbitrary value: only a dict has [get]. *)
Definition py_get (v : json) (key : string) (default : json) : result json :=
  match v with
  | JObj m => Ok (dict_get m key default)
  | _ => Raise AttributeError
  end.

(** The values a [for] loop draws from [v]. *)
Definition py_iter (v : json) : result (list json) :=
  match v with
  | JArr l => Ok l
  | JStr s => Ok (map (fun c => JStr (String c EmptyString)) (list_ascii_of_string s))
  | JObj m => Ok (map (fun kv => JStr (fst kv)) m)
  | _ => Raise TypeError
  end.

(** One entry of the list [google_cse_search] returns. *)
Record search_result : Type := {
  sr_title : json;
  sr_url : json;
  sr_snippet : json
}.

Definition google_cse_search (cfg : Config) (get : network)
    (query : string) (num : Z) : result (list search_result) :=
  if negb (configured cfg) then Ok []
  else
    let params :=
      {| req_url := cse_endpoint;
         req_key := GOOGLE_CSE_API_KEY cfg;
         req_cx := GOOGLE_CSE_CX cfg;
         req_q := query;
         req_num := Z.max 1 (Z.min num 10);
         req_timeout := 20 |} in
    match get params with
    | NetFail e => Raise e
    | Response status body =>
        _ <- raise_for_status status ;;
        data <- response_json body ;;
        found <- py_get data "items" (JArr []) ;;
        items <- py_iter (py_or found (JArr [])) ;;
        for_each
          (fun it =>
             title <- py_get it "title" JNull ;;
             link <- py_get it "link" JNull ;;
             snippet <- py_get it "snippet" (JStr "") ;;
             Ok {| sr_title := title; sr_url := link; sr_snippet := snippet |})
          items
    end.

(** ** Comps *)

(** A comp as [build_comps] makes it. Its price is always a float, the
    result of [round(..., 2)], so the [isinstance] test of [recommend_price]
    holds for every comp and only the test [price > 0] is left. *)
Record Comp : Type := {
  source : string;
  title : json;
  price : float;
  url : json
}.

Definition opt_truthy (p : option float) : bool :=
  match p with
  | Some f => truthy f
  | None => false
  end.

(** [s or ""] then [f"{s} "] and the like, for an optional text *)
Definition text_or_empty (s : option string) : string :=
  match s with
  | Some t => t
  | None => ""
  end.

(** The item name after [(item or "").strip() or "item"]. *)
Definition normalize_item (item : option string) : string :=
  let s := strip (text_or_empty item) in
  if (s =? "")%string then "item" else s.

Definition brand_part (brand : option string) : string :=
  match brand with
  | Some b => if (b =? "")%string then "" else b ++ " "
  | None => ""
  end.

Definition cond_part (condition : option string) : string :=
  match condition with
  | Some c => if (c =? "")%string then "" else " " ++ c
  | None => ""
  end.

(** The body of the loop over the live results (lines 95-110). *)
Definition live_comp (item : string) (brand : option string)
    (res : search_result) : result Comp :=
  let title := py_or (sr_title res) (JStr (brand_part brand ++ item ++ " (similar)")) in
  let url := sr_url res in
  let snippet := sr_snippet res in
  from_title <- extract_price_from_text title ;;
  found <- (if opt_truthy from_title then Ok from_title
            else extract_price_from_text snippet) ;;
  let price := match found with Some p => p | None => pzero end in
  Ok {| source := "Web (CSE)"; title := title; price := round2 price; url := url |}.

(** The base price of the fallback (lines 120-128). *)
Definition fallback_base (item : string) (brand : option string) : float :=
  let base := dec 30 0 in
  let base :=
    match brand with
    | Some b => if negb (b =? "")%string && str_in (lower b) ["ikea"] then dec 35 0 else base
    | None => base
    end in
  let base := if str_in (lower item) ["sofa"; "couch"; "sectional"] then dec 250 0 else base in
  let base := if str_in (lower item) ["table"; "dining table"] then dec 120 0 else base in
  let base := if str_in (lower item) ["chair"] then dec 35 0 else base in
  base.

(** The estimated comps of the fallback (lines 130-135). *)
Definition fallback_comps (item : string) (brand : option string) : list Comp :=
  let base := fallback_base item brand in
  let similar := JStr (brand_part brand ++ item ++ " (similar)") in
  [ {| source := "Marketplace"; title := similar;
       price := round2 (mul base (dec 85 2)); url := JNull |};
    {| source := "Marketplace"; title := similar;
       price := round2 (mul base (dec 95 2)); url := JNull |};
    {| source := "Marketplace"; title := similar;
       price := round2 (mul base (dec 105 2)); url := JNull |};
    {| source := "Retail (est.)";
       title := JStr ("New " ++ brand_part brand ++ item ++ " (estimate)");
       price := round2 (mul base (dec 145 2)); url := JNull |} ].

Definition all_zero (comps : list Comp) : bool :=
  forallb (fun c => eqb (price c) pzero) comps.

Definition nonempty {A : Type} (l : list A) : bool :=
  match l with
  | [] => false
  | _ => true
  end.

Definition build_comps (cfg : Config) (get : network)
    (item : option string) (brand condition : option string)
  : result (list Comp) :=
  let item := normalize_item item in
  let q := brand_part brand ++ item ++ cond_part condition ++ " price" in
  live <-
    (if ENABLE_LIVE_COMPS cfg && configured cfg then
       results <- google_cse_search cfg get q 5 ;;
       comps <- for_each (live_comp item brand) results ;;
       let comps := if nonempty comps && all_zero comps then [] else comps in
       Ok comps
     else Ok []) ;;
  if nonempty live then Ok live
  else Ok (fallback_comps item brand).

(** ** The numeric routines of the interpreter *)

(** [sum] on floats before CPython 3.12: additions from left to right,
    starting from the integer 0. *)
Definition sum_left (l : list float) : float := fold_left add l pzero.

(** [sum] on floats since CPython 3.12: Neumaier's compensated summation,
    entered after the first item was added to the integer 0. *)
Definition neumaier_step (st : float * float) (x : float) : float * float :=
  let (f, c) := st in
  let t := add f x in
  let c' :=
    if geb (abs f) (abs x) then add c (add (sub f t) x)
    else add c (add (sub x t) f) in
  (t, c').

Definition sum_compensated (l : list float) : float :=
  match l with
  | [] => pzero
  | x :: l' =>
      let (f, c) := fold_left neumaier_step l' (add pzero x, pzero) in
      if truthy c && is_finite c then add f c else f
  end.

(** What differs between interpreters and C libraries: the rounding of
    [sum] and of the [pow] of libm. *)
Record Runtime : Type := {
  py_sum : list float -> float;
  libm_pow : float -> float -> float
}.

(** [x ** 2] on a float ([float_pow] of CPython with exponent 2.0): the
    special values are settled before libm is asked, and an infinite
    answer of libm is an [OverflowError]. *)
Definition float_pow2 (rt : Runtime) (x : float) : result float :=
  match x with
  | S754_nan => Ok x
  | S754_infinity _ => Ok (S754_infinity false)
  | S754_zero _ => Ok pzero
  | S754_finite _ _ _ =>
      if eqb (abs x) (dec 1 0) then Ok (dec 1 0)
      else
        let ix := libm_pow rt (abs x) (dec 2 0) in
        match ix with
        | S754_infinity _ => Raise OverflowError
        | _ => Ok ix
        end
  end.

(** [math.sqrt] *)
Definition math_sqrt (x : float) : result float :=
  match x with
  | S754_finite true _ _ | S754_infinity true => Raise ValueError
  | _ => Ok (sqrt x)
  end.

(** A libm whose [pow] is correctly rounded on squares. *)
Definition pow_exact (x y : float) : float :=
  if eqb y (dec 2 0) then mul x x else S754_nan.

Definition cpython_311 : Runtime := {| py_sum := sum_left; libm_pow := pow_exact |}.
Definition cpython_312 : Runtime := {| py_sum := sum_compensated; libm_pow := pow_exact |}.

(** ** Recommendation *)

Record Recommendation : Type := {
  recommended_price : float;
  low : float;
  high : float;
  confidence : string;
  notes : list string
}.

(** [len(l)] as the float it becomes in a division *)
Definition float_len {A : Type} (l : list A) : float := of_Z (Z.of_nat (List.length l)).

(** The prices kept by the comprehension of line 138. *)
Definition usable_prices (comps : list Comp) : list float :=
  map price (filter (fun c => gtb (price c) pzero) comps).

Definition note_default : string :=
  "Not enough real comp prices found; using your input / default estimate.".
Definition note_below (e : float) : string :=
  "Your expected price ($" ++ format_0f e ++ ") is below comps; you could list higher.".
Definition note_above (e : float) : string :=
  "Your expected price ($" ++ format_0f e ++ ") is above comps; expect slower interest.".
Definition note_within : string :=
  "Your expected price is within the comp range.".
Definition note_strategy : string :=
  "List slightly higher if you can wait; price closer to low for quick sale.".
Definition note_photos : string :=
  "Good photos and clear pickup details increase conversion.".

(** [x if x else d] for an optional float *)
Definition expected_or (expected_price : option float) (d : float) : float :=
  match expected_price with
  | Some e => if truthy e then e else d
  | None => d
  end.

Definition mean (rt : Runtime) (prices : list float) : float :=
  div (py_sum rt prices) (float_len prices).

(** [math.sqrt(sum((p - avg) ** 2 for p in prices) / len(prices))] *)
Definition stdev_of (rt : Runtime) (avg : float) (prices : list float) : result float :=
  squares <- for_each (fun p => float_pow2 rt (sub p avg)) prices ;;
  math_sqrt (div (py_sum rt squares) (float_len prices)).

Definition expectation_notes (expected_price : option float) (p : float)
    (ps : list float) : list string :=
  match expected_price with
  | Some e =>
      if truthy e then
        if ltb e (min_list p ps) then [note_below e]
        else if gtb e (max_list p ps) then [note_above e]
        else [note_within]
      else []
  | None => []
  end.

Definition recommend_price (rt : Runtime) (expected_price : option float)
    (comps : list Comp) : result Recommendation :=
  match usable_prices comps with
  | [] =>
      let rec := expected_or expected_price (dec 50 0) in
      let low := mul rec (dec 9 1) in
      let high := mul rec (dec 11 1) in
      Ok {| recommended_price := round2 rec;
            low := round2 low;
            high := round2 high;
            confidence := "low";
            notes := [note_default] |}
  | (p :: ps) as prices =>
      let avg := mean rt prices in
      let rec := expected_or expected_price avg in
      let rec := add (mul rec (dec 6 1)) (mul avg (dec 4 1)) in
      stdev <- stdev_of rt avg prices ;;
      let band := max2 (dec 2 0) stdev in
      let low := max2 (dec 1 0) (sub rec band) in
      let high := add rec band in
      let confidence := if (3 <=? List.length prices)%nat then "medium" else "low" in
      let notes :=
        (expectation_notes expected_price p ps ++ [note_strategy; note_photos])%list in
      Ok {| recommended_price := round2 rec;
            low := round2 low;
            high := round2 high;
            confidence := confidence;
            notes := notes |}
  end.

(** ** The CSE helper of the front end ([_cse_search_top_url] of [app.py])

    The same search, made by the front end for one link: here the call and
    the decoding sit in a [try] whose handler answers [None]. *)

Definition py_first (v : json) : result json :=
  match v with
  | JArr (x :: _) => Ok x
  | JStr (String c _) => Ok (JStr (String c EmptyString))
  | _ => Raise TypeError
  end.

Definition cse_search_top_url_try (cfg : Config) (get : network)
    (query : string) (timeout : Z) : result json :=
  match get {| req_url := cse_endpoint;
               req_key := GOOGLE_CSE_API_KEY cfg;
               req_cx := GOOGLE_CSE_CX cfg;
               req_q := query;
               req_num := 1;
               req_timeout := timeout |} with
  | NetFail e => Raise e
  | Response status body =>
      if negb (status =? 200) then Ok JNull
      else
        data <- response_json body ;;
        found <- py_get data "items" JNull ;;
        let items := py_or found (JArr []) in
        if negb (py_truthy items) then Ok JNull
        else it <- py_first items ;; py_get it "link" JNull
  end.

Definition cse_search_top_url (cfg : Config) (get : network)
    (query : string) (timeout : Z) : json :=
  if negb (configured cfg) then JNull
  else
    match cse_search_top_url_try cfg get query timeout with
    | Ok v => v
    | Raise _ => JNull
    end.

(** ** The specification's wording, for comparison with the code *)

(** The category table of the synthetic generator: sofa, couch and
    sectional at 250, table and dining table at 120, chair at 35. *)
Definition category_base (category : string) : option float :=
  if str_in category ["sofa"; "couch"; "sectional"] then Some (dec 250 0)
  else if str_in category ["table"; "dining table"] then Some (dec 120 0)
  else if str_in category ["chair"] then Some (dec 35 0)
  else None.

(** At most [n] leading digits of [s], and what follows them. *)
Fixpoint take_digits (n : nat) (s : string) : string * string :=
  match n, s with
  | S n', String c s' =>
      if is_digit c then
        let (ds, rest) := take_digits n' s' in (String c ds, rest)
      else (EmptyString, s)
  | _, _ => (EmptyString, s)
  end.

(** A number at the head of [s]: one to five integer digits, then an
    optional fraction of one or two digits, as the pair of both digit
    texts. *)
Definition number_at (s : string) : option (string * string) :=
  match take_digits 5 s with
  | (EmptyString, _) => None
  | (ds, String c rest) =>
      if Ascii.eqb c "." then Some (ds, fst (take_digits 2 rest)) else Some (ds, EmptyString)
  | (ds, EmptyString) => Some (ds, EmptyString)
  end.

(** A price token at the head of [s]: an optional currency marker followed
    by a number. *)
Definition token_at (s : string) : option (string * string) :=
  match s with
  | String c s' => if Ascii.eqb c "$" then number_at s' else number_at s
  | EmptyString => None
  end.

(** The first token of [s]. *)
Fixpoint first_token (s : string) : option (string * string) :=
  match token_at s with
  | Some t => Some t
  | None =>
      match s with
      | String _ s' => first_token s'
      | EmptyString => None
      end
  end.

(** The numeric value of a token: its digits over the power of ten of its
    fraction. *)
Definition token_value (t : string * string) : float :=
  dec (digits_value 0 (fst t ++ snd t)) (String.length (snd t)).

(** [extract_price] as section 4.1 words it. *)
Definition spec_extract_price (text : string) : option float :=
  option_map token_value (first_token (remove_char "," text)).

(** ** Auxiliary notions of the proofs *)

(** The number that starts at the first digit of [s]. *)
Fixpoint first_number (s : string) : option (string * string) :=
  match s with
  | EmptyString => None
  | String c s' => if is_digit c then number_at s else first_number s'
  end.

(** The text of a number. *)
Definition number_text (t : string * string) : string :=
  match snd t with
  | EmptyString => fst t
  | f => fst t ++ String "." f
  end.

Definition no_digit (s : string) : bool := every (fun c => negb (is_digit c)) s.
Definition no_space (s : string) : bool := every (fun c => negb (is_space c)) s.
Definition no_dollar (s : string) : bool := every (fun c => negb (Ascii.eqb c "$")) s.

(** The part of [PRICE_RE] that follows the currency marker and the
    blanks. *)
Definition NUMBER_RE : Re.t :=
  Re.seq (Re.rep is_digit 1 5)
    (Re.opt (Re.seq (Re.chr ".") (Re.rep is_digit 1 2))).

Definition all_space (s : string) : bool := every is_space s.

(** What [PRICE_RE] lets match after the number: the optional fraction. *)
Definition FRACTION_RE : Re.cont :=
  Re.opt (Re.seq (Re.chr ".") (Re.rep is_digit 1 2)) Re.accept.

(** The text of a fraction at the head of [s]. *)
Definition fraction_text (s : string) : string :=
  match s with
  | String c rest =>
      if Ascii.eqb c "." then
        match fst (take_digits 2 rest) with
        | EmptyString => EmptyString
        | f => String "." f
        end
      else EmptyString
  | EmptyString => EmptyString
  end.

(** ** Sample inputs *)

(** Live lookup switched on, with both credentials. *)
Definition live_cfg : Config :=
  {| ENABLE_LIVE_COMPS := true; GOOGLE_CSE_API_KEY := "key"; GOOGLE_CSE_CX := "cx" |}.

(** A comp of a given price. *)
Definition priced (p : float) : Comp :=
  {| source := "Marketplace"; title := JStr "item (similar)"; price := p; url := JNull |}.

(** Networks that time out, answer a server error, answer a body that is
    not JSON, or answer JSON of another shape. *)
Definition net_timeout : network := fun _ => NetFail Timeout.
Definition net_status (status : Z) : network := fun _ => Response status (Some (JObj [])).
Definition net_not_json : network := fun _ => Response 200 None.
Definition net_json (data : json) : network := fun _ => Response 200 (Some data).

(** A successful search whose two results carry no price. *)
Definition unpriced_items : json :=
  JObj [("items",
         JArr [ JObj [("title", JStr "Grey sofa, great shape");
                      ("link", JStr "https://example.org/a");
                      ("snippet", JStr "Call for price")];
                JObj [("title", JStr "Sofa");
                      ("link", JStr "https://example.org/b")] ])].

(** The exponent of the format at magnitude [e], and "the value [m * 2^e]
    is at least 1" ([2 ^ (- e)] is 0 when [e] is positive). *)
Definition fexp64 (e : Z) : Z := fexp prec emax e.
Definition at_least_one (m e : Z) : Prop := 2 ^ (- e) <= m.

(** A finite float in canonical form: its exponent is the one of the format
    for its number of bits. *)
Definition canonical (x : float) : bool :=
  match x with
  | S754_finite _ m e => canonical_mantissa prec emax m e
  | _ => true
  end.

(** The half width of the band: 2.0 or something above it. *)
Definition is_band (b : float) : Prop := b = dec 2 0 \/ ltb (dec 2 0) b = true.

(** ** The endpoint [agent_interpret] of [main.py] *)

(** [hay.startswith(p)] is [String.prefix p hay]; [needle in hay] *)
Fixpoint contains (needle hay : string) : bool :=
  String.prefix needle hay
  || match hay with
     | String _ hay' => contains needle hay'
     | EmptyString => false
     end.

(** [s[n:]] *)
Fixpoint drop (n : nat) (s : string) : string :=
  match n, s with
  | S n', String _ s' => drop n' s'
  | _, _ => s
  end.

(** What the endpoint takes from the interpreter: [json.loads], [float] on
    a text, and the text [str] gives for a value that is not a [str]. *)
Record Builtins : Type := {
  json_loads : string -> result json;
  float_of_str : string -> option float;
  py_str : json -> string
}.

(** [safe_float] on any value: [float(x)] with every exception turned into
    [None]. An integer too large for a double raises [OverflowError], and
    [None], lists and dicts raise [TypeError]. *)
Definition safe_float_any (bi : Builtins) (x : json) : option float :=
  match x with
  | JFloat f => Some f
  | JInt z =>
      match of_Z z with
      | S754_infinity _ => None
      | f => Some f
      end
  | JBool b => Some (if b then dec 1 0 else pzero)
  | JStr s => float_of_str bi s
  | JNull | JArr _ | JObj _ => None
  end.

(** The text an f-string puts for a value. *)
Definition text_of (bi : Builtins) (v : json) : string :=
  match v with
  | JStr s => s
  | _ => py_str bi v
  end.

(** The loop body of [build_comps] for a given text of the brand part. *)
Definition live_comp_with (brand_text item : string) (res : search_result)
  : result Comp :=
  let title := py_or (sr_title res) (JStr (brand_text ++ item ++ " (similar)")) in
  let url := sr_url res in
  let snippet := sr_snippet res in
  from_title <- extract_price_from_text title ;;
  found <- (if opt_truthy from_title then Ok from_title
            else extract_price_from_text snippet) ;;
  let price := match found with Some p => p | None => pzero end in
  Ok {| source := "Web (CSE)"; title := title; price := round2 price; url := url |}.

(** [build_comps] as the endpoint calls it, with the values of the details
    as they come out of JSON: an item that is true and not a [str] has no
    [strip], a brand that is true and not a [str] has no [lower]. *)
Definition build_comps_any (bi : Builtins) (cfg : Config) (get : network)
    (item brand condition : json) : result (list Comp) :=
  item <- match py_or item (JStr "") with
          | JStr s => Ok (normalize_item (Some s))
          | _ => Raise AttributeError
          end ;;
  let brand_text := if py_truthy brand then text_of bi brand ++ " " else "" in
  let cond_text := if py_truthy condition then " " ++ text_of bi condition else "" in
  let q := brand_text ++ item ++ cond_text ++ " price" in
  live <-
    (if ENABLE_LIVE_COMPS cfg && configured cfg then
       results <- google_cse_search cfg get q 5 ;;
       comps <- for_each (live_comp_with brand_text item) results ;;
       let comps := if nonempty comps && all_zero comps then [] else comps in
       Ok comps
     else Ok []) ;;
  if nonempty live then Ok live
  else
    match brand with
    | JStr b => Ok (fallback_comps item (Some b))
    | _ => if py_truthy brand then Raise AttributeError
           else Ok (fallback_comps item None)
    end.

(** The fields of the form (lines 222-227). *)
Definition form_fields : json :=
  JArr [ JObj [("name", JStr "price"); ("label", JStr "Your expected price ($)");
               ("type", JStr "number"); ("required", JBool true)];
         JObj [("name", JStr "notes"); ("label", JStr "Notes (optional)");
               ("type", JStr "text"); ("required", JBool false)];
         JObj [("name", JStr "shape"); ("label", JStr "Shape");
               ("type", JStr "select");
               ("options", JArr [JStr "Rectangle"; JStr "Round"; JStr "Square"; JStr "Other"]);
               ("required", JBool false)];
         JObj [("name", JStr "dimensions"); ("label", JStr "Dimensions (L x W x H)");
               ("type", JStr "text"); ("required", JBool false)] ].

Definition json_of_option (s : option string) : json :=
  match s with
  | Some t => JStr t
  | None => JNull
  end.

(** The dict the endpoint returns: the keys of a "sell_item" answer, or the
    message of a greeting. *)
Inductive reply : Type :=
| SellItem (category extracted form : json)
           (comps : option (list Comp)) (recommendation : option Recommendation)
| Greeting (message : string).

(** The brand and the item found in a lower-case message (lines 217-218). *)
Definition detect_brand (text : string) : option string :=
  if contains "ikea" text then Some "IKEA" else None.

Definition detect_item (text : string) : string :=
  if contains "chair" text then "chair"
  else if contains "table" text then "table"
  else if contains "sofa" text || contains "couch" text then "sofa"
  else "item".

Definition agent_interpret (bi : Builtins) (rt : Runtime) (cfg : Config)
    (get : network) (message : string) : result reply :=
  let msg := message in
  if String.prefix "DETAILS:" msg then
    (* the first "DETAILS:" of msg is its prefix *)
    details <- json_loads bi (drop 8 msg) ;;
    item1 <- py_get details "item" JNull ;;
    item2 <- (if py_truthy item1 then Ok item1 else py_get details "category" JNull) ;;
    let item := py_or item2 (JStr "item") in
    brand <- py_get details "brand" JNull ;;
    condition <- py_get details "condition" JNull ;;
    price1 <- py_get details "price" JNull ;;
    price2 <- (if py_truthy price1 then Ok price1
               else py_get details "price_expectation" JNull) ;;
    let expected_price := safe_float_any bi price2 in
    comps <- build_comps_any bi cfg get item brand condition ;;
    rec <- recommend_price rt expected_price comps ;;
    Ok (SellItem item details JNull (Some comps) (Some rec))
  else
    let text := lower msg in
    if contains "sell" text then
      let brand := detect_brand text in
      let item := detect_item text in
      let form :=
        JObj [("title", JStr (strip ("Details for " ++ brand_part brand ++ item)));
              ("fields", form_fields);
              ("prefill", JObj [("brand", json_of_option brand); ("item", JStr item)])] in
      Ok (SellItem (JStr item)
            (JObj [("brand", json_of_option brand); ("item", JStr item)])
            form None None)
    else Ok (Greeting "Hello! Tell me what furniture you want to sell.").

(** A float with the sign [s] that is not NaN. *)
Definition sign_is (s : bool) (x : float) : Prop :=
  match x with
  | S754_zero s' | S754_infinity s' | S754_finite s' _ _ => s' = s
  | S754_nan => False
  end.

(** The request [google_cse_search] makes for a query. *)
Definition cse_request (cfg : Config) (query : string) (num : Z) : request :=
  {| req_url := cse_endpoint;
     req_key := GOOGLE_CSE_API_KEY cfg;
     req_cx := GOOGLE_CSE_CX cfg;
     req_q := query;
     req_num := Z.max 1 (Z.min num 10);
     req_timeout := 20 |}.

(** The entry of the result list for the fields of one item of the
    payload. *)
Definition result_of_fields (fields : list (string * json)) : search_result :=
  {| sr_title := dict_get fields "title" JNull;
     sr_url := dict_get fields "link" JNull;
     sr_snippet := dict_get fields "snippet" (JStr "") |}.

(** More sample inputs: a key without engine id, a payload with two items
    of which one lacks its snippet, a result whose snippet is a number. *)
Definition half_cfg : Config :=
  {| ENABLE_LIVE_COMPS := true; GOOGLE_CSE_API_KEY := "key"; GOOGLE_CSE_CX := "" |}.

Definition two_items : list (list (string * json)) :=
  [ [("title", JStr "Oak table $120"); ("link", JStr "https://example.org/t");
     ("snippet", JStr "solid oak")];
    [("link", JStr "https://example.org/u")] ].

Definition odd_result : search_result :=
  {| sr_title := JStr "Armchair 45.50"; sr_url := JNull; sr_snippet := JInt 7 |}.

(** A value that is a text, or is false. *)
Definition text_or_false (v : json) : bool :=
  match v with
  | JStr _ => true
  | _ => negb (py_truthy v)
  end.

(** The item, the brand and the price the endpoint reads in the details
    (lines 195-198). *)
Definition details_item (d : list (string * json)) : json :=
  py_or (py_or (dict_get d "item" JNull) (dict_get d "category" JNull)) (JStr "item").

Definition details_brand (d : list (string * json)) : json := dict_get d "brand" JNull.

Definition details_price (d : list (string * json)) : json :=
  py_or (dict_get d "price" JNull) (dict_get d "price_expectation" JNull).

(** What a brand given in the details is for the fallback. *)
Definition brand_of (v : json) : option string :=
  match v with
  | JStr b => Some b
  | _ => None
  end.

(** Builtins for the examples: a parser that knows no JSON but one
    payload. *)
Definition sample_builtins (payload : string) (value : json) : Builtins :=
  {| json_loads := fun s => if (s =? payload)%string then Ok value else Raise JSONDecodeError;
     float_of_str := float_of_numeral;
     py_str := fun _ => "?" |}.

Definition sample_details : list (string * json) :=
  [("brand", JStr "IKEA"); ("item", JStr "sofa"); ("price", JStr "150");
   ("notes", JStr ""); ("shape", JStr "Other")].

(** The query the endpoint searches for the details [d] whose item is the
    text [s] (lines 86-89, called from line 200). *)
Definition details_brand_text (bi : Builtins) (d : list (string * json)) : string :=
  if py_truthy (details_brand d) then text_of bi (details_brand d) ++ " " else "".

Definition details_query (bi : Builtins) (d : list (string * json)) (s : string)
  : string :=
  details_brand_text bi d
  ++ normalize_item (Some s)
  ++ (if py_truthy (dict_get d "condition" JNull)
      then " " ++ text_of bi (dict_get d "condition" JNull) else "")
  ++ " price".

(** A payload for the examples that names its item under "category". *)
Definition desk_details : list (string * json) :=
  [("category", JStr "desk "); ("brand", JStr "IKEA"); ("price_expectation", JInt 40)].

(** * Properties *)

(** ** Synthetic comps *)

Lemma build_comps_offline key cx get item brand condition :
  build_comps (offline key cx) get item brand condition
  = Ok (fallback_comps (normalize_item item) brand).
Proof. reflexivity. Qed.

Lemma fallback_comps_length item brand :
  List.length (fallback_comps item brand) = 4%nat.
Proof. reflexivity. Qed.

(** C6. With live lookup disabled, [build_comps("chair")] is the four
    comps "Marketplace" (three times) and "Retail (est.)", priced 29.75,
    33.25, 36.75 and 50.75 from the base 35.0, each without url; and the
    fallback has four comps whatever its input. *)
Theorem build_comps_chair_offline :
  (forall key cx get,
      build_comps (offline key cx) get (Some "chair") None None
      = Ok [ {| source := "Marketplace"; title := JStr "chair (similar)";
                price := dec 2975 2; url := JNull |};
             {| source := "Marketplace"; title := JStr "chair (similar)";
                price := dec 3325 2; url := JNull |};
             {| source := "Marketplace"; title := JStr "chair (similar)";
                price := dec 3675 2; url := JNull |};
             {| source := "Retail (est.)"; title := JStr "New chair (estimate)";
                price := dec 5075 2; url := JNull |} ])
  /\ fallback_base "chair" None = dec 35 0
  /\ (forall item brand, List.length (fallback_comps item brand) = 4%nat)
  /\ (forall key cx get item brand condition,
        exists comps,
          build_comps (offline key cx) get item brand condition = Ok comps
          /\ List.length comps = 4%nat).
Proof.
  split; [| split; [| split]].
  - intros key cx get. rewrite build_comps_offline. vm_compute. reflexivity.
  - vm_compute. reflexivity.
  - exact fallback_comps_length.
  - intros. eexists. split.
    + apply build_comps_offline.
    + apply fallback_comps_length.
Qed.

(** ** Base price *)

Lemma str_in_In x l : str_in x l = true -> In x l.
Proof.
  unfold str_in. intros H. apply existsb_exists in H.
  destruct H as [y [Hy Hxy]]. apply String.eqb_eq in Hxy. now subst.
Qed.

(** C7. For the brand "ikea" in any letter case, a recognised item
    category decides the base price: the category base replaces the brand
    base of 35.0. *)
Theorem category_base_overrides_ikea (item brand : string) (b : float) :
  lower brand = "ikea" ->
  category_base (lower item) = Some b ->
  fallback_base item (Some brand) = b.
Proof.
  intros Hbrand Hcat.
  unfold fallback_base. rewrite Hbrand.
  unfold category_base in Hcat.
  generalize dependent (lower item). intros category Hcat.
  destruct (str_in category ["sofa"; "couch"; "sectional"]) eqn:Hsofa.
  - injection Hcat as <-. apply str_in_In in Hsofa. simpl in Hsofa.
    decompose [or] Hsofa; subst; reflexivity || contradiction.
  - destruct (str_in category ["table"; "dining table"]) eqn:Htable.
    + injection Hcat as <-. apply str_in_In in Htable. simpl in Htable.
      decompose [or] Htable; subst; reflexivity || contradiction.
    + destruct (str_in category ["chair"]) eqn:Hchair; [| discriminate].
      injection Hcat as <-.
      destruct (negb (brand =? "")%string); reflexivity.
Qed.

Lemma category_base_overrides_ikea_witness :
  fallback_base "Sofa" (Some "IKEA") = dec 250 0
  /\ fallback_base "sofa" (Some "ikea") = dec 250 0
  /\ dec 250 0 <> dec 35 0.
Proof.
  split; [| split].
  - apply (category_base_overrides_ikea "Sofa" "IKEA"); reflexivity.
  - apply (category_base_overrides_ikea "sofa" "ikea"); reflexivity.
  - discriminate.
Defined.

(** ** Failures of the live search *)

Section LiveSearch.

Variable cfg : Config.
Variable get : network.
Variables (item brand condition : option string).

Hypothesis live_enabled : ENABLE_LIVE_COMPS cfg = true.
Hypothesis live_configured : configured cfg = true.

Let query : string :=
  brand_part brand ++ normalize_item item ++ cond_part condition ++ " price".

Let params : request :=
  {| req_url := cse_endpoint;
     req_key := GOOGLE_CSE_API_KEY cfg;
     req_cx := GOOGLE_CSE_CX cfg;
     req_q := query;
     req_num := 5;
     req_timeout := 20 |}.

Lemma build_comps_live :
  build_comps cfg get item brand condition
  = (results <- google_cse_search cfg get query 5 ;;
     comps <- for_each (live_comp (normalize_item item) brand) results ;;
     let comps := if nonempty comps && all_zero comps then [] else comps in
     if nonempty comps then Ok comps
     else Ok (fallback_comps (normalize_item item) brand)).
Proof.
  unfold build_comps. rewrite live_enabled, live_configured. cbn [andb].
  fold query.
  destruct (google_cse_search cfg get query 5) as [results | e]; [| reflexivity].
  cbn [bind].
  destruct (for_each (live_comp (normalize_item item) brand) results);
    reflexivity.
Qed.

Lemma search_failure_raised (e : exn) :
  google_cse_search cfg get query 5 = Raise e ->
  build_comps cfg get item brand condition = Raise e.
Proof. intros H. rewrite build_comps_live, H. reflexivity. Qed.

Lemma google_cse_search_request :
  google_cse_search cfg get query 5
  = match get params with
    | NetFail e => Raise e
    | Response status body =>
        _ <- raise_for_status status ;;
        data <- response_json body ;;
        found <- py_get data "items" (JArr []) ;;
        items <- py_iter (py_or found (JArr [])) ;;
        for_each
          (fun it =>
             title <- py_get it "title" JNull ;;
             link <- py_get it "link" JNull ;;
             snippet <- py_get it "snippet" (JStr "") ;;
             Ok {| sr_title := title; sr_url := link; sr_snippet := snippet |})
          items
    end.
Proof. unfold google_cse_search. rewrite live_configured. reflexivity. Qed.

(** C1, on the code. A timeout or connection failure of the request, an
    error status and a body that is not JSON each leave [build_comps] as
    the exception they raise: nothing between the request and the caller
    handles it, and no synthetic comps are returned. *)
Theorem build_comps_propagates_search_failure :
  (forall e, get params = NetFail e ->
             build_comps cfg get item brand condition = Raise e)
  /\ (forall status body,
        get params = Response status body ->
        400 <= status < 600 ->
        build_comps cfg get item brand condition = Raise (HTTPError status))
  /\ (forall status,
        get params = Response status None ->
        ~ 400 <= status < 600 ->
        build_comps cfg get item brand condition = Raise JSONDecodeError).
Proof.
  repeat split.
  - intros e H. apply search_failure_raised.
    rewrite google_cse_search_request, H. reflexivity.
  - intros status body H [Hlo Hhi]. apply search_failure_raised.
    rewrite google_cse_search_request, H. unfold raise_for_status.
    apply Z.leb_le in Hlo. apply Z.ltb_lt in Hhi. rewrite Hlo, Hhi.
    reflexivity.
  - intros status H Hst. apply search_failure_raised.
    rewrite google_cse_search_request, H. unfold raise_for_status.
    destruct ((400 <=? status) && (status <? 600)) eqn:E; [| reflexivity].
    apply andb_prop in E. destruct E as [Hlo Hhi].
    apply Z.leb_le in Hlo. apply Z.ltb_lt in Hhi. lia.
Qed.

(** C2. When the live search answers a non-empty list of results whose
    resolved prices are all 0.0, [build_comps] returns the synthetic comps
    of the same item and brand, not the live list. *)
Theorem build_comps_discards_all_zero
    (results : list search_result) (comps : list Comp) :
  google_cse_search cfg get query 5 = Ok results ->
  results <> [] ->
  for_each (live_comp (normalize_item item) brand) results = Ok comps ->
  all_zero comps = true ->
  build_comps cfg get item brand condition
  = Ok (fallback_comps (normalize_item item) brand).
Proof.
  intros Hsearch _ Hcomps Hzero.
  rewrite build_comps_live, Hsearch. cbn [bind]. rewrite Hcomps. cbn [bind].
  rewrite Hzero, Bool.andb_true_r.
  destruct comps; reflexivity.
Qed.

End LiveSearch.

Lemma build_comps_propagates_search_failure_witness :
  build_comps live_cfg net_timeout (Some "sofa") None None = Raise Timeout
  /\ build_comps live_cfg (net_status 503) (Some "sofa") None None
     = Raise (HTTPError 503)
  /\ build_comps live_cfg net_not_json (Some "sofa") None None
     = Raise JSONDecodeError.
Proof.
  destruct (build_comps_propagates_search_failure live_cfg net_timeout
              (Some "sofa") None None eq_refl eq_refl) as [H1 _].
  destruct (build_comps_propagates_search_failure live_cfg (net_status 503)
              (Some "sofa") None None eq_refl eq_refl) as [_ [H2 _]].
  destruct (build_comps_propagates_search_failure live_cfg net_not_json
              (Some "sofa") None None eq_refl eq_refl) as [_ [_ H3]].
  split; [| split].
  - apply (H1 Timeout). reflexivity.
  - apply (H2 503 (Some (JObj []))); [reflexivity | lia].
  - apply (H3 200); [reflexivity | lia].
Defined.

(** The helper of the front end answers [None] on the same failures. *)
Lemma cse_search_top_url_degrades (cfg : Config) (get : network) (q : string) (t : Z) :
  (forall e, (forall r, get r = NetFail e) -> cse_search_top_url cfg get q t = JNull)
  /\ (forall status body,
        (forall r, get r = Response status body) -> status <> 200 ->
        cse_search_top_url cfg get q t = JNull)
  /\ ((forall r, get r = Response 200 None) -> cse_search_top_url cfg get q t = JNull).
Proof.
  unfold cse_search_top_url, cse_search_top_url_try.
  repeat split.
  - intros e H. rewrite H. destruct (negb (configured cfg)); reflexivity.
  - intros status body H Hst. rewrite H.
    apply Z.eqb_neq in Hst. rewrite Hst.
    destruct (negb (configured cfg)); reflexivity.
  - intros H. rewrite H. destruct (negb (configured cfg)); reflexivity.
Qed.

Lemma build_comps_discards_all_zero_witness :
  build_comps live_cfg (net_json unpriced_items) (Some "sofa") (Some "IKEA") (Some "used")
  = Ok (fallback_comps "sofa" (Some "IKEA")).
Proof.
  eapply (build_comps_discards_all_zero live_cfg (net_json unpriced_items)
            (Some "sofa") (Some "IKEA") (Some "used") eq_refl eq_refl).
  - vm_compute. reflexivity.
  - discriminate.
  - vm_compute. reflexivity.
  - vm_compute. reflexivity.
Defined.

(** ** Recommendation *)

Lemma usable_prices_none (comps : list Comp) :
  Forall (fun c => gtb (price c) pzero = false) comps ->
  usable_prices comps = [].
Proof.
  unfold usable_prices.
  induction 1 as [| c comps Hc _ IH]; [reflexivity |].
  cbn [filter]. rewrite Hc. exact IH.
Qed.

Lemma usable_prices_some (comps : list Comp) :
  Exists (fun c => gtb (price c) pzero = true) comps ->
  usable_prices comps <> [].
Proof.
  unfold usable_prices.
  induction 1 as [c comps Hc | c comps _ IH]; cbn [filter].
  - rewrite Hc. discriminate.
  - destruct (gtb (price c) pzero); [discriminate | exact IH].
Qed.

(** C9. An expected price of 0.0 gives the recommendation of an absent
    expected price, for every comp list: it is neither blended nor
    compared with the comp range. *)
Theorem recommend_price_zero_expectation (rt : Runtime) (comps : list Comp) :
  recommend_price rt (Some pzero) comps = recommend_price rt None comps.
Proof.
  unfold recommend_price.
  destruct (usable_prices comps) as [| p ps]; reflexivity.
Qed.

(** C5 as stated fails: without usable comps, a negative expected price is
    returned as the recommended price, where 50.0 is expected. *)
Lemma negative_expectation_is_recommended :
  gtb (dec (-5) 0) pzero = false
  /\ forall rt,
       exists r,
         recommend_price rt (Some (dec (-5) 0)) [] = Ok r
         /\ recommended_price r = dec (-5) 0
         /\ recommended_price r <> dec 50 0.
Proof.
  split; [reflexivity |].
  intros rt. eexists. split; [reflexivity |].
  split; [vm_compute; reflexivity | vm_compute; discriminate].
Qed.

(** C5, amended. Without a comp of price > 0, the recommended price is
    the expected price when it is given and not zero (whatever its sign),
    else 50.0, rounded to two decimals; low and high are the roundings of
    0.9 and 1.1 times that price; confidence is "low" and the only note is
    the one on the default. With no expected price and no comps this is
    50.0, 45.0 and 55.0. *)
Theorem recommend_price_without_usable_comps :
  (forall rt expected_price comps,
      Forall (fun c => gtb (price c) pzero = false) comps ->
      let rec :=
        match expected_price with
        | Some e => if eqb e pzero then dec 50 0 else e
        | None => dec 50 0
        end in
      recommend_price rt expected_price comps
      = Ok {| recommended_price := round2 rec;
              low := round2 (mul rec (dec 9 1));
              high := round2 (mul rec (dec 11 1));
              confidence := "low";
              notes := [note_default] |})
  /\ (forall rt,
        recommend_price rt None []
        = Ok {| recommended_price := dec 50 0;
                low := dec 45 0;
                high := dec 55 0;
                confidence := "low";
                notes := [note_default] |}).
Proof.
  split.
  - intros rt expected_price comps Hnone rec.
    unfold recommend_price. rewrite (usable_prices_none comps Hnone).
    assert (expected_or expected_price (dec 50 0) = rec) as ->; [| reflexivity].
    subst rec. destruct expected_price as [e |]; [| reflexivity].
    unfold expected_or, truthy. destruct (eqb e pzero); reflexivity.
  - intros rt. vm_compute. reflexivity.
Qed.

Lemma recommend_price_without_usable_comps_witness :
  recommend_price cpython_312 (Some (dec 40 0)) [priced pzero]
  = Ok {| recommended_price := dec 40 0;
          low := dec 36 0;
          high := dec 44 0;
          confidence := "low";
          notes := [note_default] |}.
Proof.
  destruct recommend_price_without_usable_comps as [H _].
  rewrite (H cpython_312 (Some (dec 40 0)) [priced pzero]).
  - vm_compute. reflexivity.
  - repeat constructor.
Defined.





(** ** Strings and character classes *)

Lemma append_empty_r (s : string) : s ++ "" = s.
Proof. induction s as [| c s IH]; [reflexivity |]. cbn. now rewrite IH. Qed.

Lemma append_assoc (a b c : string) : (a ++ b) ++ c = a ++ (b ++ c).
Proof. induction a as [| x a IH]; [reflexivity |]. cbn. now rewrite IH. Qed.

Lemma every_append (P : ascii -> bool) (a b : string) :
  every P (a ++ b) = every P a && every P b.
Proof.
  induction a as [| c a IH]; [reflexivity |].
  cbn. rewrite IH. apply Bool.andb_assoc.
Qed.

Lemma every_weaken (P Q : ascii -> bool) (s : string) :
  (forall c, P c = true -> Q c = true) -> every P s = true -> every Q s = true.
Proof.
  intros HPQ. induction s as [| c s IH]; [reflexivity |].
  cbn. intros H. apply andb_prop in H. destruct H as [Hc Hs].
  now rewrite (HPQ c Hc), (IH Hs).
Qed.

(** The classes of [PRICE_RE] do not overlap. *)
Lemma digit_not_space (c : ascii) : is_digit c = true -> is_space c = false.
Proof. destruct c as [[] [] [] [] [] [] [] []]; vm_compute; congruence. Qed.

Lemma digit_not_dollar (c : ascii) : is_digit c = true -> Ascii.eqb c "$" = false.
Proof. destruct c as [[] [] [] [] [] [] [] []]; vm_compute; congruence. Qed.

Lemma digit_not_point (c : ascii) : is_digit c = true -> Ascii.eqb c "." = false.
Proof. destruct c as [[] [] [] [] [] [] [] []]; vm_compute; congruence. Qed.

Lemma space_not_dollar (c : ascii) : is_space c = true -> Ascii.eqb c "$" = false.
Proof. destruct c as [[] [] [] [] [] [] [] []]; vm_compute; congruence. Qed.

Lemma remove_char_absent (c : ascii) (s : string) :
  every (fun a => negb (Ascii.eqb a c)) s = true -> remove_char c s = s.
Proof.
  induction s as [| x s IH]; [reflexivity |].
  cbn. intros H. apply andb_prop in H. destruct H as [Hx Hs].
  apply Bool.negb_true_iff in Hx. now rewrite Hx, (IH Hs).
Qed.

Lemma lstrip_spaces (ws s : string) :
  all_space ws = true -> lstrip (ws ++ s) = lstrip s.
Proof.
  induction ws as [| c ws IH]; [reflexivity |].
  cbn. intros H. apply andb_prop in H. destruct H as [Hc Hws].
  now rewrite Hc, (IH Hws).
Qed.

Lemma lstrip_no_space (s : string) : no_space s = true -> lstrip s = s.
Proof.
  destruct s as [| c s]; [reflexivity |].
  cbn. intros H. apply andb_prop in H. destruct H as [Hc _].
  apply Bool.negb_true_iff in Hc. now rewrite Hc.
Qed.

Lemma rstrip_no_space (s : string) : no_space s = true -> rstrip s = s.
Proof.
  induction s as [| c s IH]; [reflexivity |].
  cbn. intros H. apply andb_prop in H. destruct H as [Hc Hs].
  apply Bool.negb_true_iff in Hc. rewrite (IH Hs), Hc.
  destruct s; reflexivity.
Qed.

(** ** Numbers at the head of a text *)

Lemma take_digits_zero (s : string) : take_digits 0 s = ("", s).
Proof. destruct s; reflexivity. Qed.

Lemma take_digits_empty (n : nat) : take_digits n "" = ("", "").
Proof. destruct n; reflexivity. Qed.

Lemma take_digits_step (n : nat) (c : ascii) (s : string) :
  take_digits (S n) (String c s)
  = if is_digit c
    then (String c (fst (take_digits n s)), snd (take_digits n s))
    else ("", String c s).
Proof. cbn [take_digits]. destruct (is_digit c), (take_digits n s); reflexivity. Qed.

Lemma take_digits_digits (n : nat) (s : string) :
  all_digits (fst (take_digits n s)) = true.
Proof.
  revert s. induction n as [| n IH]; intros [| c s]; try reflexivity.
  cbn. destruct (is_digit c) eqn:Hc; [| reflexivity].
  specialize (IH s). destruct (take_digits n s) as [ds rest].
  cbn in *. now rewrite Hc.
Qed.

(** A run of exactly [n] digits followed by anything is taken whole. *)
Lemma take_digits_run (ds rest : string) :
  all_digits ds = true ->
  take_digits (String.length ds) (ds ++ rest) = (ds, rest).
Proof.
  induction ds as [| c ds IH]; intros H.
  - destruct rest; reflexivity.
  - cbn in H |- *. apply andb_prop in H. destruct H as [Hc Hds].
    now rewrite Hc, (IH Hds).
Qed.

Lemma all_digits_no_space (s : string) : all_digits s = true -> no_space s = true.
Proof.
  apply every_weaken. intros c Hc. now rewrite (digit_not_space c Hc).
Qed.

Lemma all_digits_no_dollar (s : string) : all_digits s = true -> no_dollar s = true.
Proof.
  apply every_weaken. intros c Hc. now rewrite (digit_not_dollar c Hc).
Qed.

Lemma all_digits_no_point (s : string) :
  all_digits s = true -> every (fun c => negb (Ascii.eqb c ".")) s = true.
Proof.
  apply every_weaken. intros c Hc. now rewrite (digit_not_point c Hc).
Qed.

(** What [number_at] answers: the digits, of the right counts. *)
Lemma number_at_shape (s : string) (t : string * string) :
  number_at s = Some t ->
  fst t <> "" /\ all_digits (fst t) = true /\ all_digits (snd t) = true.
Proof.
  unfold number_at. intros H.
  pose proof (take_digits_digits 5 s) as Hds.
  destruct (take_digits 5 s) as [ds rest]. cbn in Hds.
  destruct ds as [| d ds]; [discriminate |].
  destruct rest as [| c rest].
  - injection H as <-. cbn. repeat split; [discriminate | exact Hds].
  - destruct (Ascii.eqb c ".").
    + injection H as <-. cbn [fst snd].
      repeat split; [discriminate | exact Hds | exact (take_digits_digits 2 rest)].
    + injection H as <-. cbn. repeat split; [discriminate | exact Hds].
Qed.

Lemma number_at_head (c : ascii) (s : string) :
  number_at (String c s) = None <-> is_digit c = false.
Proof.
  unfold number_at. rewrite take_digits_step.
  destruct (is_digit c); [| tauto].
  split; [| discriminate].
  destruct (snd (take_digits 4 s)) as [| x rest]; [discriminate |].
  destruct (Ascii.eqb x "."); discriminate.
Qed.

(** ** What the pattern matches *)

Lemma upto_digits (n : nat) (k : Re.cont) (s : string) :
  (forall r, k r <> None) ->
  Re.upto is_digit n k s
  = option_map (append (fst (take_digits n s))) (k (snd (take_digits n s))).
Proof.
  intros Hk. revert s.
  induction n as [| n IH]; intros s.
  - rewrite take_digits_zero. cbn. destruct (k s); reflexivity.
  - destruct s as [| c s].
    + rewrite take_digits_empty. cbn. destruct (k ""); reflexivity.
    + rewrite take_digits_step. cbn [Re.upto].
      destruct (is_digit c); cbn [fst snd].
      * rewrite IH.
        destruct (k (snd (take_digits n s))) eqn:E; [reflexivity | now apply Hk in E].
      * destruct (k (String c s)); reflexivity.
Qed.

Lemma accept_total (r : string) : Re.accept r <> None.
Proof. discriminate. Qed.

Lemma fraction_re_unfold (s : string) :
  FRACTION_RE s
  = Re.first_of
      (Re.chr "." (Re.exactly is_digit 1 (Re.upto is_digit 1 Re.accept)) s)
      (Some "").
Proof. reflexivity. Qed.

Lemma fraction_re_text (s : string) : FRACTION_RE s = Some (fraction_text s).
Proof.
  rewrite fraction_re_unfold. unfold fraction_text, Re.chr.
  destruct s as [| c rest]; [reflexivity |].
  destruct (Ascii.eqb c ".") eqn:Hc; [| reflexivity].
  apply Ascii.eqb_eq in Hc. subst c.
  destruct rest as [| d rest]; [reflexivity |].
  rewrite take_digits_step. cbn [Re.exactly].
  destruct (is_digit d); [| reflexivity].
  rewrite (upto_digits 1 Re.accept rest accept_total).
  cbn. now rewrite append_empty_r.
Qed.

Lemma fraction_re_total (r : string) : FRACTION_RE r <> None.
Proof. rewrite fraction_re_text. discriminate. Qed.

(** The number part of [PRICE_RE] matches the text of the number at the
    head, and nothing when no number is there. *)
Lemma number_re_text (s : string) :
  NUMBER_RE Re.accept s = option_map number_text (number_at s).
Proof.
  change (NUMBER_RE Re.accept) with (Re.exactly is_digit 1 (Re.upto is_digit 4 FRACTION_RE)).
  destruct s as [| c s]; [reflexivity |].
  unfold number_at. rewrite take_digits_step. cbn [Re.exactly].
  destruct (is_digit c); [| reflexivity].
  rewrite (upto_digits 4 FRACTION_RE s fraction_re_total), fraction_re_text.
  destruct (take_digits 4 s) as [ds rest]. cbn [fst snd option_map].
  unfold fraction_text, number_text.
  destruct rest as [| x rest]; cbn [fst snd].
  - now rewrite append_empty_r.
  - destruct (Ascii.eqb x "."); cbn [fst snd].
    + destruct (fst (take_digits 2 rest)); [now rewrite append_empty_r | reflexivity].
    + now rewrite append_empty_r.
Qed.

Lemma number_re_fails_on_space (c : ascii) (s : string) :
  is_space c = true -> NUMBER_RE Re.accept (String c s) = None.
Proof.
  intros Hc. rewrite number_re_text.
  assert (number_at (String c s) = None) as ->; [| reflexivity].
  apply number_at_head. destruct (is_digit c) eqn:Hd; [| reflexivity].
  apply digit_not_space in Hd. congruence.
Qed.

(** Blanks before a number: all of them are matched, or nothing is. *)
Lemma star_space_number (s : string) :
  match Re.star is_space (NUMBER_RE Re.accept) s with
  | Some m =>
      exists ws rest t,
        s = ws ++ rest /\ all_space ws = true
        /\ number_at rest = Some t /\ m = ws ++ number_text t
  | None => number_at s = None
  end.
Proof.
  induction s as [| c s IH].
  - cbn. reflexivity.
  - cbn [Re.star]. destruct (is_space c) eqn:Hc.
    + destruct (Re.star is_space (NUMBER_RE Re.accept) s) as [m |].
      * cbn [option_map Re.first_of].
        destruct IH as (ws & rest & t & -> & Hws & Ht & ->).
        exists (String c ws), rest, t.
        split; [reflexivity |].
        split; [unfold all_space in *; cbn [every]; now rewrite Hc, Hws |].
        split; [exact Ht | reflexivity].
      * cbn [option_map Re.first_of].
        rewrite (number_re_fails_on_space c s Hc).
        apply number_at_head. destruct (is_digit c) eqn:Hd; [| reflexivity].
        apply digit_not_space in Hd. congruence.
    + rewrite number_re_text.
      destruct (number_at (String c s)) as [t |] eqn:Ht; [| reflexivity].
      exists "", (String c s), t. now repeat split.
Qed.

Lemma all_space_no_digit (ws : string) : all_space ws = true -> no_digit ws = true.
Proof.
  apply every_weaken. intros c Hc.
  destruct (is_digit c) eqn:Hd; [| reflexivity].
  apply digit_not_space in Hd. congruence.
Qed.

Lemma all_space_no_dollar (ws : string) : all_space ws = true -> no_dollar ws = true.
Proof.
  apply every_weaken. intros c Hc. now rewrite (space_not_dollar c Hc).
Qed.

Lemma point_digits_plain (P : ascii -> bool) (i f : string) :
  P "."%char = true -> every P i = true -> every P f = true ->
  every P (i ++ String "." f) = true.
Proof.
  intros Hp Hi Hf. rewrite every_append. cbn [every]. now rewrite Hi, Hp, Hf.
Qed.

(** The text of a number has digits and at most one point. *)
Lemma number_text_plain (s : string) (t : string * string) :
  number_at s = Some t ->
  no_space (number_text t) = true /\ no_dollar (number_text t) = true.
Proof.
  intros H. destruct (number_at_shape s t H) as (_ & Hi & Hf).
  destruct t as [ds fs]. cbn [fst snd] in *. unfold number_text. cbn [fst snd].
  pose proof (all_digits_no_space ds Hi) as Hi1.
  pose proof (all_digits_no_dollar ds Hi) as Hi2.
  pose proof (all_digits_no_space fs Hf) as Hf1.
  pose proof (all_digits_no_dollar fs Hf) as Hf2.
  destruct fs as [| f fs]; [now split |].
  split; apply point_digits_plain; trivial.
Qed.

(** [m.group(1).replace("$", "").strip()] on blanks and a number. *)
Lemma price_text_of_match (ws s : string) (t : string * string) :
  all_space ws = true ->
  number_at s = Some t ->
  strip (remove_char "$" (ws ++ number_text t)) = number_text t.
Proof.
  intros Hws Ht. destruct (number_text_plain s t Ht) as [Hsp Hdo].
  rewrite remove_char_absent.
  - unfold strip. rewrite (lstrip_spaces ws _ Hws), (lstrip_no_space _ Hsp).
    now apply rstrip_no_space.
  - change (no_dollar (ws ++ number_text t) = true).
    unfold no_dollar. rewrite every_append.
    change (no_dollar ws && no_dollar (number_text t) = true).
    now rewrite (all_space_no_dollar ws Hws), Hdo.
Qed.

Lemma price_re_unfold (s : string) :
  PRICE_RE Re.accept s
  = Re.first_of
      (Re.chr "$" (Re.star is_space (NUMBER_RE Re.accept)) s)
      (Re.star is_space (NUMBER_RE Re.accept) s).
Proof. reflexivity. Qed.

(** A match of [PRICE_RE] at the head of [s]: a prefix without digits and
    the number behind it; the price text is the text of the number. *)
Lemma price_re_here (s : string) :
  match PRICE_RE Re.accept s with
  | Some m =>
      exists pre rest t,
        s = pre ++ rest /\ no_digit pre = true
        /\ number_at rest = Some t
        /\ strip (remove_char "$" m) = number_text t
  | None => number_at s = None
  end.
Proof.
  rewrite price_re_unfold.
  assert (match Re.star is_space (NUMBER_RE Re.accept) s with
          | Some m =>
              exists pre rest t,
                s = pre ++ rest /\ no_digit pre = true
                /\ number_at rest = Some t
                /\ strip (remove_char "$" m) = number_text t
          | None => number_at s = None
          end) as Hplain.
  { pose proof (star_space_number s) as H.
    destruct (Re.star is_space (NUMBER_RE Re.accept) s) as [m |]; [| exact H].
    destruct H as (ws & rest & t & -> & Hws & Ht & ->).
    exists ws, rest, t.
    split; [reflexivity |].
    split; [now apply all_space_no_digit |].
    split; [exact Ht | now apply (price_text_of_match ws rest)]. }
  destruct s as [| c s]; [exact Hplain |].
  cbn [Re.chr].
  destruct (Ascii.eqb c "$") eqn:Hc; [| exact Hplain].
  apply Ascii.eqb_eq in Hc. subst c.
  pose proof (star_space_number s) as H.
  destruct (Re.star is_space (NUMBER_RE Re.accept) s) as [m |].
  - cbn [option_map Re.first_of].
    destruct H as (ws & rest & t & -> & Hws & Ht & ->).
    exists (String "$" ws), rest, t.
    split; [reflexivity |].
    split.
    { unfold no_digit. cbn [every].
      change (every (fun c => negb (is_digit c)) ws) with (no_digit ws).
      now rewrite (all_space_no_digit ws Hws). }
    split; [exact Ht |].
    change (strip (remove_char "$" (ws ++ number_text t)) = number_text t).
    now apply (price_text_of_match ws rest).
  - exact Hplain.
Qed.

Lemma first_number_skip (pre s : string) :
  no_digit pre = true -> first_number (pre ++ s) = first_number s.
Proof.
  induction pre as [| c pre IH]; [reflexivity |].
  unfold no_digit. cbn. intros H. apply andb_prop in H. destruct H as [Hc Hpre].
  apply Bool.negb_true_iff in Hc. rewrite Hc. now apply IH.
Qed.

Lemma first_number_here (s : string) (t : string * string) :
  number_at s = Some t -> first_number s = Some t.
Proof.
  destruct s as [| c s]; [discriminate |].
  intros H. cbn [first_number].
  destruct (is_digit c) eqn:Hc; [exact H |].
  apply (proj2 (number_at_head c s)) in Hc. congruence.
Qed.

Lemma first_number_at (s : string) (t : string * string) :
  first_number s = Some t -> exists r, number_at r = Some t.
Proof.
  induction s as [| c s IH]; [discriminate |].
  cbn [first_number]. destruct (is_digit c); [| exact IH].
  intros H. now exists (String c s).
Qed.

(** [PRICE_RE.search]: the match found holds the number at the first
    digit of the text; without a digit nothing is found. *)
Lemma search_price_re (s : string) :
  match Re.search PRICE_RE s with
  | Some m =>
      exists t, first_number s = Some t
                /\ strip (remove_char "$" m) = number_text t
  | None => first_number s = None
  end.
Proof.
  induction s as [| c s IH].
  - reflexivity.
  - cbn [Re.search].
    pose proof (price_re_here (String c s)) as H.
    destruct (PRICE_RE Re.accept (String c s)) as [m |].
    + destruct H as (pre & rest & t & Hs & Hpre & Ht & Hm).
      exists t. split; [| exact Hm].
      rewrite Hs, (first_number_skip pre rest Hpre).
      now apply first_number_here.
    + apply number_at_head in H. cbn [first_number]. rewrite H. exact IH.
Qed.

Lemma split_point_plain (s : string) :
  every (fun c => negb (Ascii.eqb c ".")) s = true -> split_point s = (s, None).
Proof.
  induction s as [| c s IH]; [reflexivity |].
  cbn. intros H. apply andb_prop in H. destruct H as [Hc Hs].
  apply Bool.negb_true_iff in Hc. now rewrite Hc, (IH Hs).
Qed.

Lemma split_point_fraction (i f : string) :
  every (fun c => negb (Ascii.eqb c ".")) i = true ->
  split_point (i ++ String "." f) = (i, Some f).
Proof.
  induction i as [| c i IH]; [reflexivity |].
  cbn. intros H. apply andb_prop in H. destruct H as [Hc Hi].
  apply Bool.negb_true_iff in Hc. now rewrite Hc, (IH Hi).
Qed.

(** [float] reads the text of a number as the value of the token. *)
Lemma float_of_number_text (s : string) (t : string * string) :
  number_at s = Some t ->
  float_of_numeral (number_text t) = Some (token_value t).
Proof.
  intros H. destruct (number_at_shape s t H) as (Hne & Hi & Hf).
  destruct t as [ds fs]. cbn [fst snd] in *.
  unfold float_of_numeral, number_text, token_value. cbn [fst snd].
  destruct ds as [| d ds]; [contradiction |].
  destruct fs as [| f fs].
  - rewrite (split_point_plain _ (all_digits_no_point _ Hi)), Hi.
    now rewrite append_empty_r.
  - rewrite (split_point_fraction _ _ (all_digits_no_point _ Hi)), Hi, Hf.
    reflexivity.
Qed.

(** [extract_price_from_text] on a text: the value of the number at the
    first digit that is left once the commas are removed. *)
Lemma extract_price_first_number (text : string) :
  extract_price_from_text (JStr text)
  = Ok (option_map token_value (first_number (remove_char "," text))).
Proof.
  unfold extract_price_from_text. cbn [py_truthy].
  destruct text as [| c text]; [reflexivity |].
  cbn [String.eqb negb].
  pose proof (search_price_re (remove_char "," (String c text))) as H.
  destruct (Re.search PRICE_RE (remove_char "," (String c text))) as [m |].
  - destruct H as (t & Ht & Hm). rewrite Ht, Hm. cbn [option_map].
    unfold safe_float. f_equal.
    destruct (first_number_at _ t Ht) as [r Hr].
    now apply (float_of_number_text r).
  - now rewrite H.
Qed.

(** The first token of the specification is the number at the first
    digit. *)
Lemma first_token_number (s : string) : first_token s = first_number s.
Proof.
  induction s as [| c s IH]; [reflexivity |].
  cbn [first_token token_at first_number].
  destruct (Ascii.eqb c "$") eqn:Hc.
  - assert (is_digit c = false) as ->.
    { destruct (is_digit c) eqn:Hd; [| reflexivity].
      apply digit_not_dollar in Hd. congruence. }
    destruct (number_at s) as [t |] eqn:Ht; [| exact IH].
    symmetry. now apply first_number_here.
  - destruct (number_at (String c s)) as [t |] eqn:Ht.
    + destruct (is_digit c) eqn:Hd; [reflexivity |].
      apply (proj2 (number_at_head c s)) in Hd. congruence.
    + apply number_at_head in Ht. rewrite Ht. exact IH.
Qed.

(** C8. On every text, [extract_price_from_text] removes the commas and
    returns the value of the first token made of an optional currency
    marker, one to five digits and an optional fraction, or none when
    there is no such token; a missing text gives none. So "$1,234.50 firm"
    gives 1234.50 and "no price listed" gives none. *)
Theorem extract_price_first_token :
  (forall text,
      extract_price_from_text (JStr text) = Ok (spec_extract_price text))
  /\ extract_price_from_text JNull = Ok None
  /\ extract_price_from_text (JStr "$1,234.50 firm") = Ok (Some (dec 123450 2))
  /\ extract_price_from_text (JStr "no price listed") = Ok None.
Proof.
  split; [| repeat split; vm_compute; reflexivity].
  intros text. unfold spec_extract_price.
  rewrite first_token_number. apply extract_price_first_number.
Qed.

(** C10. When the first digits of the text, commas removed, are a run of
    more than five, a price is returned all the same: the number written
    by the first five digits of the run. So "123456" gives 12345.0. *)
Theorem extract_price_long_run (text pre five more tail : string) :
  remove_char "," text = pre ++ (five ++ more) ++ tail ->
  no_digit pre = true ->
  all_digits (five ++ more) = true ->
  String.length five = 5%nat ->
  (0 < String.length more)%nat ->
  extract_price_from_text (JStr text) = Ok (Some (dec (digits_value 0 five) 0)).
Proof.
  intros Htext Hpre Hrun Hfive Hmore.
  unfold all_digits in Hrun. rewrite every_append in Hrun.
  apply andb_prop in Hrun. destruct Hrun as [Hdigits Hrest].
  destruct more as [| d more]; [cbn in Hmore; lia |].
  cbn [every] in Hrest. apply andb_prop in Hrest. destruct Hrest as [Hd _].
  rewrite extract_price_first_number, Htext, (first_number_skip pre _ Hpre).
  assert (number_at ((five ++ String d more) ++ tail) = Some (five, "")) as Hnum.
  { unfold number_at. rewrite append_assoc.
    rewrite <- Hfive at 1. rewrite (take_digits_run five _ Hdigits).
    destruct five; [discriminate |].
    cbn [append]. now rewrite (digit_not_point d Hd). }
  rewrite (first_number_here _ _ Hnum). cbn [option_map].
  unfold token_value. cbn [fst snd]. now rewrite append_empty_r.
Qed.

Lemma extract_price_long_run_witness :
  extract_price_from_text (JStr "123456") = Ok (Some (dec 12345 0))
  /\ extract_price_from_text (JStr "approx. $1,234,567 obo") = Ok (Some (dec 12345 0)).
Proof.
  split.
  - apply (extract_price_long_run "123456" "" "12345" "6" "");
      [reflexivity | reflexivity | reflexivity | reflexivity | cbn; lia].
  - apply (extract_price_long_run "approx. $1,234,567 obo" "approx. $" "12345" "67" " obo");
      [reflexivity | reflexivity | reflexivity | reflexivity | cbn; lia].
Defined.

(** ** Rounding to the format *)

Lemma fexp64_eq (e : Z) : fexp64 e = Z.max (e - 53) (-1074).
Proof. reflexivity. Qed.

Lemma digits2_pos_size (m : positive) : digits2_pos m = Pos.size m.
Proof. induction m as [m IH | m IH |]; cbn; now rewrite ?IH. Qed.

Lemma Zdigits2_log2 (m : Z) : 0 < m -> Zdigits2 m = Z.log2 m + 1.
Proof.
  destruct m as [| p | p]; try lia. intros _.
  cbn [Zdigits2]. rewrite digits2_pos_size.
  destruct p as [p | p |]; cbn [Z.log2 Pos.size]; lia.
Qed.

Lemma Zdigits2_bounds (m : Z) :
  0 < m -> 2 ^ (Zdigits2 m - 1) <= m < 2 ^ Zdigits2 m.
Proof.
  intros Hm. rewrite (Zdigits2_log2 m Hm).
  pose proof (Z.log2_spec m Hm) as H.
  replace (Z.log2 m + 1 - 1) with (Z.log2 m) by lia.
  replace (Z.log2 m + 1) with (Z.succ (Z.log2 m)) by lia. exact H.
Qed.

Lemma Zdigits2_unique (m k : Z) :
  0 < k -> 2 ^ (k - 1) <= m < 2 ^ k -> Zdigits2 m = k.
Proof.
  intros Hk H.
  assert (0 < m) as Hm by (pose proof (Z.pow_pos_nonneg 2 (k - 1)); lia).
  rewrite (Zdigits2_log2 m Hm).
  rewrite (Z.log2_unique m (k - 1)); [lia | lia |].
  replace (Z.succ (k - 1)) with k by lia. exact H.
Qed.

Lemma Zdigits2_pos (m : Z) : 0 < m -> 0 < Zdigits2 m.
Proof.
  intros Hm. rewrite (Zdigits2_log2 m Hm). pose proof (Z.log2_nonneg m). lia.
Qed.

Lemma Zdigits2_le (m k : Z) : 0 <= k -> 0 < m -> m < 2 ^ k -> Zdigits2 m <= k.
Proof.
  intros Hk Hm H. rewrite (Zdigits2_log2 m Hm).
  assert (Z.log2 m < k); [| lia].
  apply Z.log2_lt_pow2; assumption.
Qed.

Lemma Zdigits2_ge (m k : Z) : 0 <= k -> 2 ^ k <= m -> k + 1 <= Zdigits2 m.
Proof.
  intros Hk H.
  assert (0 < m) as Hm by (pose proof (Z.pow_pos_nonneg 2 k); lia).
  rewrite (Zdigits2_log2 m Hm).
  assert (k <= Z.log2 m); [| lia].
  apply Z.log2_le_pow2; assumption.
Qed.

(** *** Shifting a mantissa to the right *)

Lemma pow2_pos (n : Z) : 0 <= n -> 0 < 2 ^ n.
Proof. intros. apply Z.pow_pos_nonneg; lia. Qed.

Ltac pow2_side :=
  first [ lia
        | apply pow2_pos; lia
        | apply Z.pow_nonzero; lia
        | apply Z.lt_gt, pow2_pos; lia ].

Lemma shr_1_m (mrs : shr_record) :
  0 <= shr_m mrs -> shr_m (shr_1 mrs) = shr_m mrs / 2.
Proof.
  destruct mrs as [m r s]. cbn [shr_m shr_1]. intros Hm.
  destruct m as [| [p | p |] | p]; cbn [shr_m]; try lia;
    Z.div_mod_to_equations; lia.
Qed.

Lemma iter_shr_1_m (p : positive) (mrs : shr_record) :
  0 <= shr_m mrs ->
  shr_m (iter_pos shr_1 p mrs) = shr_m mrs / 2 ^ Zpos p.
Proof.
  revert mrs. induction p as [p IH | p IH |]; intros mrs Hm; cbn [iter_pos].
  - assert (0 <= shr_m (shr_1 mrs)) as H1.
    { rewrite shr_1_m by assumption. apply Z.div_pos; lia. }
    assert (0 <= shr_m (iter_pos shr_1 p (shr_1 mrs))) as H2.
    { rewrite IH by assumption. apply Z.div_pos; [assumption | apply Z.pow_pos_nonneg; lia]. }
    rewrite IH, IH, shr_1_m by assumption.
    rewrite !Z.div_div by pow2_side.
    assert (2 ^ Zpos p~1 = 2 * (2 ^ Zpos p * 2 ^ Zpos p)) as ->; [| reflexivity].
    rewrite <- !Z.pow_add_r, <- Z.pow_succ_r by lia.
    f_equal. lia.
  - assert (0 <= shr_m (iter_pos shr_1 p mrs)) as H2.
    { rewrite IH by assumption. apply Z.div_pos; [assumption | apply Z.pow_pos_nonneg; lia]. }
    rewrite IH, IH by assumption.
    rewrite !Z.div_div by pow2_side.
    assert (2 ^ Zpos p~0 = 2 ^ Zpos p * 2 ^ Zpos p) as ->; [| reflexivity].
    rewrite <- !Z.pow_add_r by lia. f_equal. lia.
  - now rewrite shr_1_m.
Qed.

Lemma shr_record_of_loc_m (m : Z) (l : location) : shr_m (shr_record_of_loc m l) = m.
Proof. destruct l as [| []]; reflexivity. Qed.

(** The mantissa and exponent [shr_fexp] leaves: the mantissa loses the
    bits below the exponent of the format. *)
Lemma shr_fexp_spec (m e : Z) (l : location) :
  0 <= m ->
  let n := Z.max (fexp64 (Zdigits2 m + e) - e) 0 in
  shr_m (fst (shr_fexp prec emax m e l)) = m / 2 ^ n
  /\ snd (shr_fexp prec emax m e l) = e + n.
Proof.
  intros Hm n. unfold shr_fexp, shr.
  change (fexp prec emax) with fexp64. subst n.
  destruct (fexp64 (Zdigits2 m + e) - e) as [| p | p] eqn:E; cbn [fst snd].
  - rewrite shr_record_of_loc_m, Z.div_1_r. split; lia.
  - rewrite iter_shr_1_m by (now rewrite shr_record_of_loc_m).
    rewrite shr_record_of_loc_m. split; [reflexivity | lia].
  - rewrite shr_record_of_loc_m.
    replace (Z.max (Zneg p) 0) with 0 by lia.
    rewrite Z.div_1_r. split; lia.
Qed.

Lemma round_nearest_even_bounds (m : Z) (l : location) :
  m <= round_nearest_even m l <= m + 1.
Proof.
  destruct l as [| []]; cbn [round_nearest_even]; try lia.
  destruct (Z.even m); lia.
Qed.

(** *** What [binary_round_aux] answers

    For a positive mantissa whose exponent is not above the exponent of the
    format, the answer has the sign asked for, is in canonical form when it
    is finite, and is not below 1 when the value rounded is not. *)

Lemma shr_fexp_first (mx ex : Z) (lx : location) :
  0 < mx ->
  ex <= fexp64 (Zdigits2 mx + ex) ->
  let m1 := shr_m (fst (shr_fexp prec emax mx ex lx)) in
  let e1 := snd (shr_fexp prec emax mx ex lx) in
  0 <= m1 < 2 ^ 53
  /\ -1074 <= e1
  /\ (e1 = -1074 \/ 2 ^ 52 <= m1)
  /\ (at_least_one mx ex -> at_least_one m1 e1).
Proof.
  intros Hmx Hpre m1 e1.
  destruct (shr_fexp_spec mx ex lx) as [Hm1 He1]; [lia |].
  fold m1 in Hm1. fold e1 in He1.
  pose proof (Zdigits2_bounds mx Hmx) as Hd.
  pose proof (Zdigits2_pos mx Hmx) as Hdpos.
  set (d := Zdigits2 mx) in *.
  rewrite fexp64_eq in *.
  set (n := Z.max (Z.max (d + ex - 53) (-1074) - ex) 0) in *.
  assert (0 <= n) as Hn by lia.
  assert (0 < 2 ^ n) as Hpn by pow2_side.
  assert (d - 53 <= n) as Hdn by lia.
  split; [| split; [| split]].
  - rewrite Hm1. split; [apply Z.div_pos; lia |].
    apply Z.div_lt_upper_bound; [assumption |].
    rewrite <- Z.pow_add_r by lia.
    assert (2 ^ d <= 2 ^ (n + 53)) by (apply Z.pow_le_mono_r; lia). lia.
  - lia.
  - destruct (Z.eq_dec e1 (-1074)) as [| Hne]; [now left | right].
    assert (n = d - 53) as Hnd by lia.
    rewrite Hm1. apply Z.div_le_lower_bound; [assumption |].
    rewrite <- Z.pow_add_r by lia.
    replace (n + 52) with (d - 1) by lia. lia.
  - unfold at_least_one. intros Hone.
    destruct (Z.lt_ge_cases (- e1) 0) as [Hneg | Hnn].
    + rewrite (Z.pow_neg_r 2 (- e1) Hneg). rewrite Hm1. apply Z.div_pos; lia.
    + rewrite Hm1. apply Z.div_le_lower_bound; [assumption |].
      rewrite <- Z.pow_add_r by lia.
      replace (n + - e1) with (- ex) by lia. exact Hone.
Qed.

Lemma binary_round_aux_spec (s : bool) (mx ex : Z) (lx : location) :
  0 < mx ->
  ex <= fexp64 (Zdigits2 mx + ex) ->
  match binary_round_aux prec emax s mx ex lx with
  | S754_finite s' m e =>
      s' = s /\ canonical_mantissa prec emax m e = true
      /\ (at_least_one mx ex -> at_least_one (Zpos m) e)
  | S754_infinity s' => s' = s
  | S754_zero s' => s' = s /\ ~ at_least_one mx ex
  | S754_nan => False
  end.
Proof.
  intros Hmx Hpre.
  pose proof (shr_fexp_first mx ex lx Hmx Hpre) as H1. cbv zeta in H1.
  unfold binary_round_aux.
  destruct (shr_fexp prec emax mx ex lx) as [mrs1 e1]. cbn [fst snd] in H1.
  destruct H1 as (Hm1 & He1 & Hnorm & Hone).
  pose proof (round_nearest_even_bounds (shr_m mrs1) (loc_of_shr_record mrs1)) as Hm2.
  set (m2 := round_nearest_even (shr_m mrs1) (loc_of_shr_record mrs1)) in *.
  destruct (shr_fexp_spec m2 e1 loc_Exact) as [Hm3 He3]; [lia |].
  destruct (shr_fexp prec emax m2 e1 loc_Exact) as [mrs2 e2]. cbn [fst snd] in Hm3, He3.
  rewrite fexp64_eq in Hm3, He3.
  assert (m2 = 0 \/ 0 < m2 < 2 ^ 53 \/ m2 = 2 ^ 53) as [Hz | [Hmid | Htop]] by lia.
  - (* everything was shifted out *)
    rewrite Hz in Hm3, He3. cbn [Zdigits2] in Hm3, He3.
    replace (Z.max (Z.max (0 + e1 - 53) (-1074) - e1) 0) with 0 in Hm3 by lia.
    rewrite Hm3. cbn. split; [reflexivity |].
    intros Hx. specialize (Hone Hx). unfold at_least_one in Hone.
    destruct Hnorm as [He | Hbig]; [| lia].
    assert (0 < 2 ^ (- e1)) by pow2_side. lia.
  - (* no carry out of the mantissa *)
    assert (Zdigits2 m2 <= 53) as Hd2 by (apply Zdigits2_le; lia).
    pose proof (Zdigits2_pos m2 (proj1 Hmid)) as Hd2pos.
    replace (Z.max (Z.max (Zdigits2 m2 + e1 - 53) (-1074) - e1) 0) with 0
      in Hm3, He3 by lia.
    rewrite Z.div_1_r in Hm3. rewrite Hm3.
    destruct m2 as [| p | p]; [lia | | lia].
    destruct (e2 <=? emax - prec); [| reflexivity].
    split; [reflexivity |]. split.
    + unfold canonical_mantissa. apply Z.eqb_eq.
      change (fexp prec emax) with fexp64. rewrite fexp64_eq.
      change (Zpos (digits2_pos p)) with (Zdigits2 (Zpos p)).
      destruct Hnorm as [He | Hbig]; [lia |].
      assert (53 <= Zdigits2 (Zpos p)); [| lia].
      apply (Zdigits2_ge (Zpos p) 52); lia.
    + intros Hx. specialize (Hone Hx). unfold at_least_one in *.
      replace e2 with e1 by lia. lia.
  - (* the rounding carried into a new bit *)
    assert (Zdigits2 m2 = 54) as Hd2.
    { apply Zdigits2_unique; [lia |]. rewrite Htop. cbn. lia. }
    rewrite Hd2 in Hm3, He3.
    replace (Z.max (Z.max (54 + e1 - 53) (-1074) - e1) 0) with 1 in Hm3, He3 by lia.
    rewrite Htop in Hm3. change (2 ^ 53 / 2 ^ 1) with 4503599627370496 in Hm3.
    rewrite Hm3.
    destruct (e2 <=? emax - prec); [| reflexivity].
    split; [reflexivity |]. split.
    + unfold canonical_mantissa. apply Z.eqb_eq.
      change (fexp prec emax) with fexp64. rewrite fexp64_eq.
      change (Zpos (digits2_pos 4503599627370496)) with 53. lia.
    + intros Hx. specialize (Hone Hx). unfold at_least_one in *.
      change (Zpos 4503599627370496) with (2 ^ 52).
      apply Z.pow_le_mono_r; [lia |].
      assert (- e1 < 53); [| lia].
      destruct (Z.lt_ge_cases (- e1) 53) as [| Hge]; [assumption |].
      assert (2 ^ 53 <= 2 ^ (- e1)) by (apply Z.pow_le_mono_r; lia). lia.
Qed.

(** *** Canonical results of the subtraction *)

Lemma digits2_pos_shift (m d : positive) :
  Zpos (digits2_pos (Pos.iter xO m d)) = Zpos (digits2_pos m) + Zpos d.
Proof.
  induction d as [| d IH] using Pos.peano_ind.
  - cbn. lia.
  - rewrite Pos.iter_succ. cbn [digits2_pos]. lia.
Qed.

Lemma shl_align_fexp (m : positive) (e : Z) :
  let '(mz, ez) := shl_align m e (fexp64 (Zpos (digits2_pos m) + e)) in
  ez <= fexp64 (Zdigits2 (Zpos mz) + ez).
Proof.
  unfold shl_align.
  destruct (fexp64 (Zpos (digits2_pos m) + e) - e) as [| d | d] eqn:E.
  - cbn [Zdigits2]. lia.
  - cbn [Zdigits2]. lia.
  - cbn [Zdigits2]. rewrite digits2_pos_shift.
    replace (Zpos (digits2_pos m) + Zpos d + fexp64 (Zpos (digits2_pos m) + e))
      with (Zpos (digits2_pos m) + e) by lia.
    lia.
Qed.

Lemma binary_round_canonical (s : bool) (m : positive) (e : Z) :
  canonical (binary_round prec emax s m e) = true.
Proof.
  unfold binary_round. change (fexp prec emax) with fexp64.
  pose proof (shl_align_fexp m e) as Hpre.
  destruct (shl_align m e (fexp64 (Zpos (digits2_pos m) + e))) as [mz ez].
  pose proof (binary_round_aux_spec s (Zpos mz) ez loc_Exact eq_refl Hpre) as H.
  destruct (binary_round_aux prec emax s (Zpos mz) ez loc_Exact);
    try reflexivity.
  cbn [canonical]. tauto.
Qed.

Lemma binary_normalize_canonical (m e : Z) (szero : bool) :
  canonical (binary_normalize prec emax m e szero) = true.
Proof.
  destruct m; cbn [binary_normalize]; [reflexivity | |];
    apply binary_round_canonical.
Qed.

Lemma one_repr : dec 1 0 = S754_finite false 4503599627370496 (-52).
Proof. vm_compute. reflexivity. Qed.

Lemma two_repr : dec 2 0 = S754_finite false 4503599627370496 (-51).
Proof. vm_compute. reflexivity. Qed.

Lemma max2_band (x : float) : is_band (max2 (dec 2 0) x).
Proof.
  unfold is_band, max2, gtb.
  destruct (ltb (dec 2 0) x) eqn:E; [now right | now left].
Qed.

(** A difference with a band that is above 1.0 is canonical. *)
Lemma sub_band_canonical (rec band : float) :
  is_band band ->
  ltb (dec 1 0) (sub rec band) = true ->
  canonical (sub rec band) = true.
Proof.
  unfold is_band. rewrite one_repr, two_repr. intros Hband Hlt.
  destruct rec as [sr | sr | | sr mr er], band as [sb | sb | | sb mb eb];
    try reflexivity;
    try (destruct Hband as [Hband | Hband]; discriminate Hband);
    try (destruct sr, sb; reflexivity).
  - (* 0 - band *)
    cbn in Hlt |- *. destruct sb; [| discriminate Hlt].
    destruct Hband as [Hband | Hband]; discriminate Hband.
  - (* rec - band, both finite *)
    apply binary_normalize_canonical.
Qed.

(** *** Two decimals of a float that is not below 1.0 *)

Lemma canonical_digits (m : positive) (e : Z) :
  canonical_mantissa prec emax m e = true ->
  Z.max (Zdigits2 (Zpos m) + e - 53) (-1074) = e.
Proof.
  unfold canonical_mantissa. intros H. apply Z.eqb_eq in H. exact H.
Qed.

(** A canonical float above 1.0 in the order of floats has a value of at
    least 1. *)
Lemma ltb_one_at_least_one (m : positive) (e : Z) :
  canonical_mantissa prec emax m e = true ->
  ltb (dec 1 0) (S754_finite false m e) = true ->
  at_least_one (Zpos m) e.
Proof.
  intros Hcan Hlt. apply canonical_digits in Hcan.
  rewrite one_repr in Hlt. unfold ltb, SFltb in Hlt. cbn [SFcompare] in Hlt.
  pose proof (Zdigits2_bounds (Zpos m) eq_refl) as Hd.
  unfold at_least_one.
  destruct (Z.compare_spec (-52) e) as [He | He | He]; [| | discriminate Hlt].
  - subst e. change (2 ^ (- -52)) with (Zpos 4503599627370496).
    change (Pos.compare_cont Eq 4503599627370496 m)
      with (Pos.compare 4503599627370496 m) in Hlt.
    destruct (Pos.compare_spec 4503599627370496 m) as [Hm | Hm | Hm];
      try discriminate Hlt.
    apply Pos2Z.pos_lt_pos in Hm. clear - Hm. lia.
  - assert (Zdigits2 (Zpos m) = 53) as Hd53 by lia. rewrite Hd53 in Hd.
    assert (2 ^ (- e) <= 2 ^ (53 - 1)) by (apply Z.pow_le_mono_r; lia). lia.
Qed.

(** A canonical float of value at least 1 is not below 1.0 in the order of
    floats. *)
Lemma at_least_one_leb_one (m : positive) (e : Z) :
  canonical_mantissa prec emax m e = true ->
  at_least_one (Zpos m) e ->
  leb (dec 1 0) (S754_finite false m e) = true.
Proof.
  intros Hcan Hone. apply canonical_digits in Hcan.
  rewrite one_repr. unfold leb, SFleb. cbn [SFcompare].
  pose proof (Zdigits2_bounds (Zpos m) eq_refl) as Hd.
  unfold at_least_one in Hone.
  destruct (Z.compare_spec (-52) e) as [He | He | He]; [| reflexivity |].
  - subst e. change (2 ^ (- -52)) with (Zpos 4503599627370496) in Hone.
    change (Pos.compare_cont Eq 4503599627370496 m)
      with (Pos.compare 4503599627370496 m).
    destruct (Pos.compare_spec 4503599627370496 m) as [Hm | Hm | Hm];
      try reflexivity.
    exfalso. apply Pos2Z.pos_lt_pos in Hm. clear - Hm Hone. lia.
  - exfalso.
    assert (Zdigits2 (Zpos m) <= 53) as Hd53 by lia.
    assert (2 ^ Zdigits2 (Zpos m) <= 2 ^ 53) by (apply Z.pow_le_mono_r; lia).
    assert (2 ^ 53 <= 2 ^ (- e)) by (apply Z.pow_le_mono_r; lia).
    lia.
Qed.

Lemma div_half_even_floor (a : Z) (b : positive) :
  a / Zpos b <= div_half_even a b.
Proof.
  unfold div_half_even.
  destruct (2 * (a mod Zpos b) ?= Zpos b); [destruct (Z.even (a / Zpos b)) | |]; lia.
Qed.

(** In hundredths, a value of at least 1 is at least 100. *)
Lemma hundredths_at_least_one (m : positive) (e : Z) :
  at_least_one (Zpos m) e -> 100 <= scaled_half_even m e 100.
Proof.
  unfold at_least_one, scaled_half_even. intros Hone.
  destruct e as [| p | p].
  - lia.
  - assert (0 < 2 ^ Zpos p) by pow2_side. nia.
  - pose proof (div_half_even_floor (Zpos m * 100) (2 ^ p)) as Hfloor.
    change (- Zneg p) with (Zpos p) in Hone.
    assert (0 < 2 ^ Zpos p) as Hp by pow2_side.
    assert (100 <= Zpos m * 100 / Zpos (2 ^ p)) as Hq; [| lia].
    rewrite Pos2Z.inj_pow.
    apply Z.div_le_lower_bound; [assumption | nia].
Qed.

(** The quotient that [of_ratio] rounds, for a numerator of at least 100
    over 100. *)
Lemma div_core_hundred (n : positive) :
  100 <= Zpos n ->
  let '(mz, ez, _) := SFdiv_core_binary prec emax (Zpos n) 0 100 0 in
  0 < mz /\ ez <= fexp64 (Zdigits2 mz + ez) /\ at_least_one mz ez.
Proof.
  intros Hn. unfold SFdiv_core_binary.
  change (fexp prec emax) with fexp64. rewrite fexp64_eq.
  change (Zdigits2 100) with 7.
  pose proof (Zdigits2_bounds (Zpos n) eq_refl) as Hd.
  assert (7 <= Zdigits2 (Zpos n)) as Hd7 by (apply (Zdigits2_ge (Zpos n) 6); lia).
  set (d := Zdigits2 (Zpos n)) in *.
  set (e' := Z.min (Z.max (d + 0 - (7 + 0) - 53) (-1074)) (0 - 0)).
  assert (e' = Z.min (d - 60) 0) as He' by lia.
  set (s := 0 - 0 - e').
  assert (0 <= s /\ s = - e') as [Hs Hse] by lia.
  set (m' := match s with
             | Z0 => Zpos n
             | Zpos _ => Z.shiftl (Zpos n) s
             | Zneg _ => 0
             end).
  assert (m' = Zpos n * 2 ^ s) as Hm'.
  { subst m'. destruct s as [| p | p] eqn:Es; [cbn; lia | | lia].
    now rewrite Z.shiftl_mul_pow2. }
  assert (0 < 2 ^ s) as Hps by pow2_side.
  assert (2 ^ 59 <= m') as Hbig.
  { rewrite Hm'.
    assert (2 ^ (d - 1) * 2 ^ s <= Zpos n * 2 ^ s) by nia.
    rewrite <- Z.pow_add_r in H by lia.
    assert (2 ^ 59 <= 2 ^ (d - 1 + s)) by (apply Z.pow_le_mono_r; lia). lia. }
  pose proof (Z_div_mod m' 100 eq_refl) as Hdiv.
  destruct (Z.div_eucl m' 100) as [q r].
  destruct Hdiv as [Hqr Hr].
  assert (2 ^ 52 <= q) as Hq52 by lia.
  split; [lia |]. split.
  - rewrite fexp64_eq.
    assert (53 <= Zdigits2 q) by (apply (Zdigits2_ge q 52); lia). lia.
  - unfold at_least_one. replace (- e') with s by lia. nia.
Qed.

Lemma of_ratio_hundred_at_least_one (n : positive) :
  100 <= Zpos n -> leb (dec 1 0) (of_ratio false n 100) = true.
Proof.
  intros Hn. unfold of_ratio, SFdiv.
  pose proof (div_core_hundred n Hn) as H.
  destruct (SFdiv_core_binary prec emax (Zpos n) 0 100 0) as [[mz ez] lz].
  destruct H as (Hmz & Hpre & Hone).
  pose proof (binary_round_aux_spec (xorb false false) mz ez lz Hmz Hpre) as Hr.
  destruct (binary_round_aux prec emax (xorb false false) mz ez lz)
    as [s | s | | s m e].
  - tauto.
  - subst s. rewrite one_repr. reflexivity.
  - contradiction.
  - destruct Hr as (-> & Hcan & Hval). cbn [xorb].
    apply at_least_one_leb_one; [exact Hcan | now apply Hval].
Qed.

(** [round(x, 2)] keeps a float above 1.0 at 1.0 or above. *)
Lemma round2_floor (x : float) :
  canonical x = true ->
  ltb (dec 1 0) x = true ->
  leb (dec 1 0) (round2 x) = true.
Proof.
  intros Hcan Hlt.
  destruct x as [s | s | | s m e].
  - rewrite one_repr in Hlt. destruct s; discriminate Hlt.
  - rewrite one_repr in Hlt |- *. destruct s; [discriminate Hlt | reflexivity].
  - rewrite one_repr in Hlt. discriminate Hlt.
  - destruct s; [rewrite one_repr in Hlt; discriminate Hlt |].
    cbn [canonical] in Hcan.
    pose proof (hundredths_at_least_one m e (ltb_one_at_least_one m e Hcan Hlt)) as Hn.
    cbn [round2].
    destruct (scaled_half_even m e 100) as [| n | n]; try lia.
    now apply of_ratio_hundred_at_least_one.
Qed.

(** The floor of [low]: whatever the recommended price and the band, the
    value returned as low is at least 1.0. *)
Lemma low_floor (rec band : float) :
  is_band band ->
  leb (dec 1 0) (round2 (max2 (dec 1 0) (sub rec band))) = true.
Proof.
  intros Hband. unfold max2, gtb.
  destruct (ltb (dec 1 0) (sub rec band)) eqn:Hlt.
  - apply round2_floor; [| exact Hlt].
    now apply sub_band_canonical.
  - vm_compute. reflexivity.
Qed.



(** * Further properties of the code *)

(** ** Prices found in a text *)

Lemma first_number_none (s : string) :
  first_number s = None <-> no_digit s = true.
Proof.
  unfold no_digit. induction s as [| c s IH]; [now split |].
  cbn [first_number every]. destruct (is_digit c) eqn:Hc; cbn [negb andb].
  - split; [| discriminate]. intros H.
    apply number_at_head in H. congruence.
  - exact IH.
Qed.

Lemma no_digit_without_commas (s : string) :
  no_digit (remove_char "," s) = no_digit s.
Proof.
  unfold no_digit. induction s as [| c s IH]; [reflexivity |].
  cbn [remove_char every]. destruct (Ascii.eqb c ",") eqn:Hc.
  - apply Ascii.eqb_eq in Hc. subst c. exact IH.
  - cbn [every]. now rewrite IH.
Qed.

(** X1. [extract_price_from_text] gives none on a text exactly when the
    text has no decimal digit: any digit at all yields a price. *)
Theorem extract_price_none_iff_no_digit (text : string) :
  extract_price_from_text (JStr text) = Ok None <-> no_digit text = true.
Proof.
  rewrite extract_price_first_number, <- no_digit_without_commas,
    <- first_number_none.
  destruct (first_number (remove_char "," text)); cbn [option_map];
    split; intros H; congruence.
Qed.

(** *** Signs *)

Lemma binary_round_aux_sign (s : bool) (mx ex : Z) (lx : location) :
  0 <= mx -> sign_is s (binary_round_aux prec emax s mx ex lx).
Proof.
  intros Hmx. unfold binary_round_aux.
  destruct (shr_fexp_spec mx ex lx Hmx) as [Hm1 _].
  destruct (shr_fexp prec emax mx ex lx) as [mrs1 e1]. cbn [fst] in Hm1.
  assert (0 <= shr_m mrs1) as H1.
  { rewrite Hm1. apply Z.div_pos; [assumption | pow2_side]. }
  pose proof (round_nearest_even_bounds (shr_m mrs1) (loc_of_shr_record mrs1)) as Hm2.
  set (m2 := round_nearest_even (shr_m mrs1) (loc_of_shr_record mrs1)) in *.
  destruct (shr_fexp_spec m2 e1 loc_Exact) as [Hm3 _]; [lia |].
  destruct (shr_fexp prec emax m2 e1 loc_Exact) as [mrs2 e2]. cbn [fst] in Hm3.
  assert (0 <= shr_m mrs2) as H3.
  { rewrite Hm3. apply Z.div_pos; [lia | pow2_side]. }
  destruct (shr_m mrs2) as [| p | p]; [reflexivity | | lia].
  destruct (e2 <=? emax - prec); reflexivity.
Qed.

Lemma of_ratio_sign (s : bool) (n d : positive) : sign_is s (of_ratio s n d).
Proof.
  unfold of_ratio, SFdiv, SFdiv_core_binary.
  set (e' := Z.min _ _). set (m' := match 0 - 0 - e' with Z0 => _ | _ => _ end).
  assert (0 <= m') as Hm'.
  { subst m'. destruct (0 - 0 - e') eqn:E; try lia.
    rewrite Z.shiftl_mul_pow2 by lia.
    assert (0 < 2 ^ Zpos p) by pow2_side. lia. }
  pose proof (Z_div_mod m' (Zpos d) eq_refl) as Hdiv.
  destruct (Z.div_eucl m' (Zpos d)) as [q r]. destruct Hdiv as [Hqr Hr].
  assert (0 <= q) as Hq by nia.
  pose proof (binary_round_aux_sign (xorb s false) q e' (new_location (Zpos d) r) Hq) as H.
  rewrite Bool.xorb_false_r in H |- *. exact H.
Qed.

Lemma sign_false_nonneg (x : float) : sign_is false x -> leb pzero x = true.
Proof. destruct x as [s | s | | s m e]; cbn; intros H; now subst. Qed.

Lemma dec_nonneg (n : Z) (k : nat) : 0 <= n -> leb pzero (dec n k) = true.
Proof.
  intros Hn. unfold dec. destruct n as [| p | p]; [reflexivity | | lia].
  apply sign_false_nonneg, of_ratio_sign.
Qed.

Lemma round2_nonneg (x : float) : leb pzero x = true -> leb pzero (round2 x) = true.
Proof.
  destruct x as [s | s | | s m e]; try (intros H; exact H).
  destruct s; [discriminate |]. intros _. cbn [round2].
  destruct (scaled_half_even m e 100); try reflexivity.
  apply sign_false_nonneg, of_ratio_sign.
Qed.

Lemma digits_value_nonneg (s : string) (acc : Z) :
  0 <= acc -> all_digits s = true -> 0 <= digits_value acc s.
Proof.
  revert acc. induction s as [| c s IH]; intros acc Hacc Hs; [exact Hacc |].
  unfold all_digits in Hs. cbn [every] in Hs. cbn [digits_value].
  apply andb_prop in Hs. destruct Hs as [Hc Hs].
  apply IH; [| exact Hs].
  unfold digit_value. unfold is_digit in Hc.
  apply andb_prop in Hc. destruct Hc as [Hlo _]. apply N.leb_le in Hlo.
  unfold code in *. lia.
Qed.

Lemma token_value_nonneg (s : string) (t : string * string) :
  number_at s = Some t -> leb pzero (token_value t) = true.
Proof.
  intros H. destruct (number_at_shape s t H) as (_ & Hi & Hf).
  unfold token_value. apply dec_nonneg, digits_value_nonneg; [lia |].
  unfold all_digits in *. now rewrite every_append, Hi, Hf.
Qed.

Lemma found_price_sign (text : json) (p : float) :
  extract_price_from_text text = Ok (Some p) -> leb pzero p = true.
Proof.
  destruct text as [| b | z | f | s | l | m];
    try (unfold extract_price_from_text;
         destruct (negb (py_truthy _)); discriminate).
  rewrite extract_price_first_number. intros H.
  destruct (first_number (remove_char "," s)) as [t |] eqn:Ht; [| discriminate].
  cbn [option_map] in H. injection H as <-.
  destruct (first_number_at _ t Ht) as [r Hr].
  now apply (token_value_nonneg r).
Qed.

(** X2. A price that [extract_price_from_text] returns is never negative
    and never NaN, whatever the value passed (a text or not). *)
Theorem extract_price_nonneg (text : json) (p : float) :
  extract_price_from_text text = Ok (Some p) -> leb pzero p = true.
Proof.
  intros H. destruct text as [| b | z | f | s | l | m];
    try (unfold extract_price_from_text in H;
         destruct (negb (py_truthy _)); discriminate).
  now apply (found_price_sign (JStr s)).
Qed.

Lemma extract_price_nonneg_witness :
  extract_price_from_text (JStr "-$45.5 or best offer") = Ok (Some (dec 455 1))
  /\ leb pzero (dec 455 1) = true.
Proof.
  split; [vm_compute; reflexivity |].
  apply (extract_price_nonneg (JStr "-$45.5 or best offer")).
  vm_compute. reflexivity.
Defined.

(** ** What [build_comps] returns *)

Lemma for_each_Forall2 {A B : Type} (f : A -> result B) (l : list A) (l' : list B) :
  for_each f l = Ok l' -> Forall2 (fun a b => f a = Ok b) l l'.
Proof.
  revert l'. induction l as [| a l IH]; intros l' H; cbn in H.
  - injection H as <-. constructor.
  - destruct (f a) as [b | e] eqn:Hb; [| discriminate]. cbn [bind] in H.
    destruct (for_each f l) as [bs | e]; [| discriminate]. cbn [bind] in H.
    injection H as <-. constructor; [exact Hb | now apply IH].
Qed.

Lemma for_each_length {A B : Type} (f : A -> result B) (l : list A) (l' : list B) :
  for_each f l = Ok l' -> List.length l' = List.length l.
Proof.
  intros H. apply for_each_Forall2 in H.
  induction H; cbn; congruence.
Qed.

Lemma live_comp_shape (item : string) (brand : option string)
    (res : search_result) (c : Comp) :
  live_comp item brand res = Ok c ->
  source c = "Web (CSE)" /\ url c = sr_url res /\ leb pzero (price c) = true.
Proof.
  unfold live_comp.
  destruct (extract_price_from_text (py_or (sr_title res) _)) as [p1 | e] eqn:H1;
    [| discriminate].
  cbn [bind].
  destruct (opt_truthy p1) eqn:Ht.
  - cbn [bind]. intros H. injection H as <-. cbn.
    repeat split. apply round2_nonneg.
    destruct p1 as [p |]; [| discriminate Ht].
    now apply (found_price_sign _ p H1).
  - destruct (extract_price_from_text (sr_snippet res)) as [p2 | e] eqn:H2;
      [| discriminate].
    cbn [bind]. intros H. injection H as <-. cbn.
    repeat split. apply round2_nonneg.
    destruct p2 as [p |]; [| reflexivity].
    now apply (found_price_sign _ p H2).
Qed.

Lemma live_comps_shape (item : string) (brand : option string)
    (results : list search_result) (comps : list Comp) :
  for_each (live_comp item brand) results = Ok comps ->
  Forall (fun c => source c = "Web (CSE)" /\ leb pzero (price c) = true) comps.
Proof.
  intros H. apply for_each_Forall2 in H.
  induction H as [| res c results comps Hc _ IH]; constructor; [| exact IH].
  apply live_comp_shape in Hc. tauto.
Qed.

(** The four bases of the fallback. *)
Lemma fallback_base_cases (item : string) (brand : option string) :
  In (fallback_base item brand) [dec 30 0; dec 35 0; dec 120 0; dec 250 0].
Proof.
  unfold fallback_base.
  destruct (str_in (lower item) ["chair"]); [cbn; tauto |].
  destruct (str_in (lower item) ["table"; "dining table"]); [cbn; tauto |].
  destruct (str_in (lower item) ["sofa"; "couch"; "sectional"]); [cbn; tauto |].
  destruct brand as [b |]; [| cbn; tauto].
  destruct (negb (b =? "")%string && str_in (lower b) ["ikea"]); cbn; tauto.
Qed.

(** The prices of the fallback, as decimals, for each base. *)
Lemma fallback_prices (item : string) (brand : option string) :
  In (map price (fallback_comps item brand))
    [ [dec 255 1; dec 285 1; dec 315 1; dec 435 1];
      [dec 2975 2; dec 3325 2; dec 3675 2; dec 5075 2];
      [dec 102 0; dec 114 0; dec 126 0; dec 174 0];
      [dec 2125 1; dec 2375 1; dec 2625 1; dec 3625 1] ].
Proof.
  unfold fallback_comps. cbn [map price].
  pose proof (fallback_base_cases item brand) as H.
  destruct H as [<- | [<- | [<- | [<- | []]]]].
  - left. vm_compute. reflexivity.
  - right; left. vm_compute. reflexivity.
  - right; right; left. vm_compute. reflexivity.
  - right; right; right; left. vm_compute. reflexivity.
Qed.

(** X3. The four synthetic comps are priced above zero and in increasing
    order, the retail estimate last and highest, for every item and
    brand. *)
Theorem fallback_prices_increasing (item : string) (brand : option string) :
  exists p1 p2 p3 p4,
    map price (fallback_comps item brand) = [p1; p2; p3; p4]
    /\ ltb pzero p1 = true /\ ltb p1 p2 = true
    /\ ltb p2 p3 = true /\ ltb p3 p4 = true.
Proof.
  pose proof (fallback_prices item brand) as H.
  destruct H as [<- | [<- | [<- | [<- | []]]]];
    do 4 eexists; (split; [reflexivity |]); repeat split; vm_compute; reflexivity.
Qed.

Lemma fallback_comps_nonneg (item : string) (brand : option string) :
  Forall (fun c => leb pzero (price c) = true) (fallback_comps item brand).
Proof.
  pose proof (fallback_prices item brand) as H.
  apply Forall_map with (f := price) (P := fun p => leb pzero p = true).
  destruct H as [<- | [<- | [<- | [<- | []]]]];
    repeat constructor.
Qed.

Lemma not_all_zero_exists (comps : list Comp) :
  all_zero comps = false -> Exists (fun c => eqb (price c) pzero = false) comps.
Proof.
  unfold all_zero. induction comps as [| c comps IH]; [discriminate |].
  cbn [forallb]. destruct (eqb (price c) pzero) eqn:Hc; cbn [andb].
  - intros H. right. now apply IH.
  - intros _. now left.
Qed.

(** How [build_comps] ends: with the fallback, or with the live list. *)
Lemma build_comps_cases (cfg : Config) (get : network)
    (item brand condition : option string) (comps : list Comp) :
  build_comps cfg get item brand condition = Ok comps ->
  comps = fallback_comps (normalize_item item) brand
  \/ (ENABLE_LIVE_COMPS cfg = true /\ configured cfg = true
      /\ nonempty comps = true /\ all_zero comps = false
      /\ exists results,
           google_cse_search cfg get
             (brand_part brand ++ normalize_item item ++ cond_part condition ++ " price") 5
           = Ok results
           /\ for_each (live_comp (normalize_item item) brand) results = Ok comps).
Proof.
  unfold build_comps.
  destruct (ENABLE_LIVE_COMPS cfg) eqn:He; cbn [andb];
    [| intros H; injection H as <-; now left].
  destruct (configured cfg) eqn:Hc;
    [| intros H; injection H as <-; now left].
  destruct (google_cse_search cfg get _ 5) as [results | e] eqn:Hs; [| discriminate].
  cbn [bind].
  destruct (for_each (live_comp (normalize_item item) brand) results)
    as [live | e] eqn:Hl; [| discriminate].
  cbn [bind].
  destruct (nonempty live) eqn:Hne; cbn [andb].
  - destruct (all_zero live) eqn:Hz; cbn [nonempty].
    + intros H. injection H as <-. now left.
    + rewrite Hne. intros H. injection H as <-. right.
      repeat split; trivial. now exists results.
  - rewrite Hne. intros H. injection H as <-. now left.
Qed.

(** X4. A list that [build_comps] returns is never empty and never mixes
    its two sources: it is either the four synthetic comps, or one
    "Web (CSE)" comp for each search result, of which at least one is not
    priced 0.0. *)
Theorem build_comps_one_source (cfg : Config) (get : network)
    (item brand condition : option string) (comps : list Comp) :
  build_comps cfg get item brand condition = Ok comps ->
  comps <> []
  /\ (comps = fallback_comps (normalize_item item) brand
      \/ (Forall (fun c => source c = "Web (CSE)") comps
          /\ Exists (fun c => eqb (price c) pzero = false) comps
          /\ exists results,
               google_cse_search cfg get
                 (brand_part brand ++ normalize_item item ++ cond_part condition ++ " price") 5
               = Ok results
               /\ List.length comps = List.length results)).
Proof.
  intros H. apply build_comps_cases in H.
  destruct H as [-> | (He & Hc & Hne & Hz & results & Hs & Hl)].
  - split; [discriminate | now left].
  - split; [destruct comps; [discriminate Hne | discriminate] |]. right.
    split; [| split].
    + pose proof (live_comps_shape _ _ _ _ Hl) as Hall.
      eapply Forall_impl; [| exact Hall]. cbn. tauto.
    + now apply not_all_zero_exists.
    + exists results. split; [exact Hs | now apply (for_each_length _ _ _ Hl)].
Qed.

Lemma build_comps_one_source_witness :
  exists comps,
    build_comps live_cfg (net_json (JObj [("items", JArr (map JObj two_items))]))
      (Some "table") None None = Ok comps
    /\ map source comps = ["Web (CSE)"; "Web (CSE)"]
    /\ comps <> [].
Proof.
  eexists. split; [vm_compute; reflexivity |].
  split; [reflexivity |].
  apply (proj1 (build_comps_one_source live_cfg
                  (net_json (JObj [("items", JArr (map JObj two_items))]))
                  (Some "table") None None _ eq_refl)).
Defined.

(** X5. Every comp that [build_comps] returns has a price that is not
    negative and not NaN, whatever the search answered. *)
Theorem build_comps_prices_nonneg (cfg : Config) (get : network)
    (item brand condition : option string) (comps : list Comp) :
  build_comps cfg get item brand condition = Ok comps ->
  Forall (fun c => leb pzero (price c) = true) comps.
Proof.
  intros H. apply build_comps_cases in H.
  destruct H as [-> | (_ & _ & _ & _ & results & _ & Hl)].
  - apply fallback_comps_nonneg.
  - pose proof (live_comps_shape _ _ _ _ Hl) as Hall.
    eapply Forall_impl; [| exact Hall]. cbn. tauto.
Qed.

Lemma build_comps_prices_nonneg_witness :
  Forall (fun c => leb pzero (price c) = true)
    (fallback_comps "sofa" (Some "IKEA")).
Proof.
  apply (build_comps_prices_nonneg live_cfg (net_json unpriced_items)
           (Some "sofa") (Some "IKEA") (Some "used")).
  vm_compute. reflexivity.
Defined.

(** ** The search *)

Lemma google_cse_search_unfold (cfg : Config) (get : network) (query : string) (num : Z) :
  google_cse_search cfg get query num
  = if negb (configured cfg) then Ok []
    else
      match get (cse_request cfg query num) with
      | NetFail e => Raise e
      | Response status body =>
          _ <- raise_for_status status ;;
          data <- response_json body ;;
          found <- py_get data "items" (JArr []) ;;
          items <- py_iter (py_or found (JArr [])) ;;
          for_each (fun it =>
                      title <- py_get it "title" JNull ;;
                      link <- py_get it "link" JNull ;;
                      snippet <- py_get it "snippet" (JStr "") ;;
                      Ok {| sr_title := title; sr_url := link; sr_snippet := snippet |})
            items
      end.
Proof. reflexivity. Qed.

(** X6. When a credential is missing, no request is made: the search
    answers the empty list and [build_comps] the synthetic comps, whatever
    the network would do and even with live lookup switched on. *)
Theorem unconfigured_search_is_skipped (cfg : Config) (get : network)
    (item brand condition : option string) :
  GOOGLE_CSE_API_KEY cfg = "" \/ GOOGLE_CSE_CX cfg = "" ->
  (forall query num, google_cse_search cfg get query num = Ok [])
  /\ build_comps cfg get item brand condition
     = Ok (fallback_comps (normalize_item item) brand).
Proof.
  intros H.
  assert (configured cfg = false) as Hc.
  { unfold configured. destruct H as [-> | ->]; cbn;
      [reflexivity | apply Bool.andb_false_r]. }
  split.
  - intros query num. rewrite google_cse_search_unfold, Hc. reflexivity.
  - unfold build_comps. rewrite Hc, Bool.andb_false_r. reflexivity.
Qed.

Lemma unconfigured_search_is_skipped_witness :
  build_comps half_cfg net_timeout (Some "sofa") None None
  = Ok (fallback_comps "sofa" None).
Proof.
  apply (unconfigured_search_is_skipped half_cfg net_timeout (Some "sofa") None None).
  right. reflexivity.
Defined.

(** X7. The only request of a search goes to the search endpoint with the
    credentials of the configuration, the result count asked for brought
    into 1..10 and a timeout of 20 seconds: two networks that agree on such
    requests give the same search. *)
Theorem google_cse_search_request_bounds (cfg : Config) (get get' : network)
    (query : string) (num : Z) :
  (forall r, req_url r = cse_endpoint ->
             req_key r = GOOGLE_CSE_API_KEY cfg ->
             req_cx r = GOOGLE_CSE_CX cfg ->
             req_q r = query ->
             1 <= req_num r <= 10 ->
             req_num r = Z.max 1 (Z.min num 10) ->
             req_timeout r = 20 ->
             get r = get' r) ->
  google_cse_search cfg get query num = google_cse_search cfg get' query num.
Proof.
  intros H. rewrite !google_cse_search_unfold.
  destruct (negb (configured cfg)); [reflexivity |].
  rewrite (H (cse_request cfg query num)); try reflexivity; cbn; lia.
Qed.

Lemma google_cse_search_request_bounds_witness :
  google_cse_search live_cfg
    (fun r => if req_num r =? 10 then Response 200 (Some unpriced_items) else NetFail Timeout)
    "sofa price" 50
  = google_cse_search live_cfg (net_json unpriced_items) "sofa price" 50.
Proof.
  apply google_cse_search_request_bounds.
  intros r _ _ _ _ Hnum Hclamp _.
  assert ((req_num r =? 10) = true) as ->; [apply Z.eqb_eq; lia | reflexivity].
Defined.

Lemma for_each_objects (fields : list (list (string * json))) :
  for_each (fun it =>
              title <- py_get it "title" JNull ;;
              link <- py_get it "link" JNull ;;
              snippet <- py_get it "snippet" (JStr "") ;;
              Ok {| sr_title := title; sr_url := link; sr_snippet := snippet |})
    (map JObj fields)
  = Ok (map result_of_fields fields).
Proof.
  induction fields as [| f fields IH]; [reflexivity |].
  cbn [map for_each py_get bind]. rewrite IH. reflexivity.
Qed.

(** X8. On a 2xx or 3xx answer whose body is an object with a list of
    objects under "items", the search returns one result per item, in
    order; a missing title or link is [None] and a missing snippet is the
    empty text. *)
Theorem google_cse_search_results (cfg : Config) (get : network)
    (query : string) (num : Z) (status : Z)
    (payload : list (string * json)) (fields : list (list (string * json))) :
  configured cfg = true ->
  get (cse_request cfg query num) = Response status (Some (JObj payload)) ->
  ~ 400 <= status < 600 ->
  dict_get payload "items" (JArr []) = JArr (map JObj fields) ->
  google_cse_search cfg get query num = Ok (map result_of_fields fields).
Proof.
  intros Hc Hget Hst Hitems.
  rewrite google_cse_search_unfold, Hc, Hget. cbn [negb].
  unfold raise_for_status.
  destruct ((400 <=? status) && (status <? 600)) eqn:E.
  { apply andb_prop in E. destruct E as [Hlo Hhi].
    apply Z.leb_le in Hlo. apply Z.ltb_lt in Hhi. lia. }
  cbn [bind response_json py_get]. rewrite Hitems.
  destruct fields as [| f fields]; [reflexivity |].
  cbn [py_or py_truthy map py_iter bind].
  apply (for_each_objects (f :: fields)).
Qed.

Lemma google_cse_search_results_witness :
  google_cse_search live_cfg (net_json (JObj [("items", JArr (map JObj two_items))]))
    "oak table price" 5
  = Ok [ {| sr_title := JStr "Oak table $120";
            sr_url := JStr "https://example.org/t";
            sr_snippet := JStr "solid oak" |};
         {| sr_title := JNull;
            sr_url := JStr "https://example.org/u";
            sr_snippet := JStr "" |} ].
Proof.
  apply (google_cse_search_results live_cfg _ "oak table price" 5 200
           [("items", JArr (map JObj two_items))] two_items);
    [reflexivity | reflexivity | lia | reflexivity].
Defined.

(** X9. A search that succeeds without results (no "items" key, or a
    value under it that is false: null, an empty list) makes [build_comps]
    return the synthetic comps. *)
Theorem build_comps_without_results (cfg : Config) (get : network)
    (item brand condition : option string) (status : Z)
    (payload : list (string * json)) :
  ENABLE_LIVE_COMPS cfg = true ->
  configured cfg = true ->
  get (cse_request cfg
         (brand_part brand ++ normalize_item item ++ cond_part condition ++ " price") 5)
  = Response status (Some (JObj payload)) ->
  ~ 400 <= status < 600 ->
  py_truthy (dict_get payload "items" (JArr [])) = false ->
  build_comps cfg get item brand condition
  = Ok (fallback_comps (normalize_item item) brand).
Proof.
  intros He Hc Hget Hst Hitems.
  unfold build_comps. rewrite He, Hc. cbn [andb].
  rewrite google_cse_search_unfold, Hc, Hget. cbn [negb].
  unfold raise_for_status.
  destruct ((400 <=? status) && (status <? 600)) eqn:E.
  { apply andb_prop in E. destruct E as [Hlo Hhi].
    apply Z.leb_le in Hlo. apply Z.ltb_lt in Hhi. lia. }
  cbn [bind response_json py_get]. unfold py_or. rewrite Hitems.
  reflexivity.
Qed.

Lemma build_comps_without_results_witness :
  build_comps live_cfg (net_json (JObj [("items", JNull)])) (Some "desk") None None
  = Ok (fallback_comps "desk" None)
  /\ build_comps live_cfg (net_json (JObj [("kind", JStr "customsearch#search")]))
       (Some "desk") None None
     = Ok (fallback_comps "desk" None).
Proof.
  split.
  - apply (build_comps_without_results live_cfg _ (Some "desk") None None 200
             [("items", JNull)]); [reflexivity | reflexivity | reflexivity | lia | reflexivity].
  - apply (build_comps_without_results live_cfg _ (Some "desk") None None 200
             [("kind", JStr "customsearch#search")]);
      [reflexivity | reflexivity | reflexivity | lia | reflexivity].
Defined.

(** X10. A price found in the title decides the price of a live comp: the
    snippet is not read then, so that a snippet that is not a text cannot
    make the call fail. *)
Theorem live_comp_title_first (item : string) (brand : option string)
    (res : search_result) (p : float) :
  extract_price_from_text
    (py_or (sr_title res) (JStr (brand_part brand ++ item ++ " (similar)")))
  = Ok (Some p) ->
  truthy p = true ->
  live_comp item brand res
  = Ok {| source := "Web (CSE)";
          title := py_or (sr_title res) (JStr (brand_part brand ++ item ++ " (similar)"));
          price := round2 p;
          url := sr_url res |}.
Proof.
  intros Ht Hp. unfold live_comp. rewrite Ht. cbn [bind opt_truthy].
  rewrite Hp. reflexivity.
Qed.

Lemma live_comp_title_first_witness :
  live_comp "armchair" None odd_result
  = Ok {| source := "Web (CSE)"; title := JStr "Armchair 45.50";
          price := dec 455 1; url := JNull |}
  /\ extract_price_from_text (sr_snippet odd_result) = Raise AttributeError.
Proof.
  split; [| reflexivity].
  rewrite (live_comp_title_first "armchair" None odd_result (dec 455 1));
    vm_compute; reflexivity.
Defined.

(** ** What the recommendation depends on *)

Lemma usable_prices_filter (comps : list Comp) :
  usable_prices (filter (fun c => gtb (price c) pzero) comps) = usable_prices comps.
Proof.
  unfold usable_prices. f_equal.
  induction comps as [| c comps IH]; [reflexivity |].
  cbn [filter]. destruct (gtb (price c) pzero) eqn:Hc; cbn [filter].
  - now rewrite Hc, IH.
  - exact IH.
Qed.

Lemma recommend_price_by_prices (rt : Runtime) (e : option float)
    (comps comps' : list Comp) :
  usable_prices comps = usable_prices comps' ->
  recommend_price rt e comps = recommend_price rt e comps'.
Proof. intros H. unfold recommend_price. now rewrite H. Qed.

(** X11. The recommendation depends on the comps only through the prices
    above zero, in their order: comps priced 0.0, negative or NaN can be
    dropped, and sources, titles and urls can change, without changing
    it. *)
Theorem recommend_price_ignores_unpriced (rt : Runtime) (e : option float) :
  (forall comps,
      recommend_price rt e (filter (fun c => gtb (price c) pzero) comps)
      = recommend_price rt e comps)
  /\ (forall comps comps',
        map price comps = map price comps' ->
        recommend_price rt e comps = recommend_price rt e comps').
Proof.
  split.
  - intros comps. apply recommend_price_by_prices, usable_prices_filter.
  - intros comps comps' H. apply recommend_price_by_prices.
    unfold usable_prices. revert comps' H.
    induction comps as [| c comps IH]; intros [| c' comps'] H;
      try discriminate H; [reflexivity |].
    cbn in H. injection H as Hc H.
    cbn [filter]. rewrite Hc.
    destruct (gtb (price c') pzero); cbn [map]; rewrite ?Hc; now rewrite (IH comps').
Qed.

Lemma recommend_price_ignores_unpriced_witness :
  recommend_price cpython_312 None [priced (dec 80 0); priced (dec 60 0)]
  = recommend_price cpython_312 None
      [ {| source := "Web (CSE)"; title := JStr "a"; price := dec 80 0; url := JNull |};
        {| source := "Web (CSE)"; title := JStr "b"; price := dec 60 0; url := JStr "u" |} ].
Proof.
  destruct (recommend_price_ignores_unpriced cpython_312 None) as [_ H].
  apply H. reflexivity.
Defined.

(** X12. A recommendation that is returned has confidence "medium" exactly
    when at least three comps have a price above zero; otherwise it is
    "low". *)
Theorem confidence_medium_iff (rt : Runtime) (e : option float)
    (comps : list Comp) (r : Recommendation) :
  recommend_price rt e comps = Ok r ->
  (confidence r = "medium" <-> (3 <= List.length (usable_prices comps))%nat)
  /\ (confidence r = "low" <-> (List.length (usable_prices comps) < 3)%nat).
Proof.
  unfold recommend_price.
  destruct (usable_prices comps) as [| p ps] eqn:Hp.
  - intros H. injection H as <-. cbn. split; split; intros H; try lia;
      try discriminate H; reflexivity.
  - destruct (stdev_of rt (mean rt (p :: ps)) (p :: ps)); [| discriminate].
    cbn [bind]. intros H. injection H as <-.
    destruct ps as [| p2 [| p3 ps]]; cbn; split; split; intros H; try lia;
      try discriminate H; reflexivity.
Qed.

Lemma confidence_medium_iff_witness :
  exists r,
    recommend_price cpython_312 None
      [priced (dec 80 0); priced pzero; priced (dec 60 0); priced (dec (-5) 0)] = Ok r
    /\ confidence r = "low".
Proof.
  eexists. split; [vm_compute; reflexivity |].
  eapply (confidence_medium_iff cpython_312 None
            [priced (dec 80 0); priced pzero; priced (dec 60 0); priced (dec (-5) 0)]).
  - vm_compute. reflexivity.
  - cbn. lia.
Defined.

(** X13. With usable comps, the notes of a recommendation end with the two
    fixed tips; they are preceded by one note on the expected price when
    one is given and is not zero, and by nothing otherwise. *)
Theorem notes_shape (rt : Runtime) (e : option float)
    (comps : list Comp) (r : Recommendation) :
  Exists (fun c => gtb (price c) pzero = true) comps ->
  recommend_price rt e comps = Ok r ->
  match e with
  | Some x =>
      if eqb x pzero then notes r = [note_strategy; note_photos]
      else exists n,
             notes r = [n; note_strategy; note_photos]
             /\ In n [note_below x; note_above x; note_within]
  | None => notes r = [note_strategy; note_photos]
  end.
Proof.
  intros Hsome Hr.
  pose proof (usable_prices_some comps Hsome) as Hne.
  unfold recommend_price in Hr.
  destruct (usable_prices comps) as [| p ps]; [contradiction |].
  destruct (stdev_of rt (mean rt (p :: ps)) (p :: ps)); [| discriminate Hr].
  cbn [bind] in Hr. injection Hr as <-. cbn [notes].
  unfold expectation_notes, truthy.
  destruct e as [x |]; [| reflexivity].
  destruct (eqb x pzero); cbn [negb]; [reflexivity |].
  destruct (ltb x (min_list p ps)); [eexists; split; [reflexivity | cbn; tauto] |].
  destruct (gtb x (max_list p ps)); eexists; (split; [reflexivity | cbn; tauto]).
Qed.

Lemma notes_shape_witness :
  exists r n,
    recommend_price cpython_312 (Some (dec 60 0))
      [priced (dec 80 0); priced (dec 90 0); priced (dec 70 0)] = Ok r
    /\ notes r = [n; note_strategy; note_photos]
    /\ In n [note_below (dec 60 0); note_above (dec 60 0); note_within].
Proof.
  assert (exists r,
             recommend_price cpython_312 (Some (dec 60 0))
               [priced (dec 80 0); priced (dec 90 0); priced (dec 70 0)] = Ok r)
    as [r Hr] by (eexists; vm_compute; reflexivity).
  assert (Exists (fun c => gtb (price c) pzero = true)
            [priced (dec 80 0); priced (dec 90 0); priced (dec 70 0)]) as Hsome
    by (apply Exists_cons_hd; reflexivity).
  pose proof (notes_shape cpython_312 (Some (dec 60 0)) _ r Hsome Hr) as H.
  cbv beta iota in H.
  replace (eqb (dec 60 0) pzero) with false in H by (vm_compute; reflexivity).
  destruct H as [n [Hn Hin]].
  exists r, n. now repeat split.
Defined.

(** X14. An expected price that is NaN is taken as given: with usable
    comps the recommended price is NaN and the first note says that the
    expected price is within the comp range. *)
Theorem nan_expectation (rt : Runtime) (comps : list Comp) (r : Recommendation) :
  Exists (fun c => gtb (price c) pzero = true) comps ->
  recommend_price rt (Some S754_nan) comps = Ok r ->
  recommended_price r = S754_nan
  /\ high r = S754_nan
  /\ notes r = [note_within; note_strategy; note_photos].
Proof.
  intros Hsome Hr.
  pose proof (usable_prices_some comps Hsome) as Hne.
  unfold recommend_price in Hr.
  destruct (usable_prices comps) as [| p ps]; [contradiction |].
  destruct (stdev_of rt (mean rt (p :: ps)) (p :: ps)); [| discriminate Hr].
  cbn [bind] in Hr. injection Hr as <-.
  cbn [recommended_price high notes expected_or truthy eqb SFeqb SFcompare negb].
  split; [reflexivity |]. split.
  - cbn. reflexivity.
  - unfold expectation_notes, gtb, ltb, SFltb.
    cbn [truthy eqb SFeqb SFcompare negb].
    now destruct (max_list p ps).
Qed.

Lemma nan_expectation_witness :
  exists r,
    recommend_price cpython_312 (Some S754_nan) [priced (dec 10 0)] = Ok r
    /\ recommended_price r = S754_nan.
Proof.
  eexists. split; [vm_compute; reflexivity |].
  apply (nan_expectation cpython_312 [priced (dec 10 0)]).
  - apply Exists_cons_hd. reflexivity.
  - vm_compute. reflexivity.
Defined.

(** ** The base price and the item name *)

(** X15. The base price of the fallback for every item and brand: the base
    of the item category when it is a known one, else 35.0 for the brand
    "ikea" in any letter case, else 30.0. *)
Theorem fallback_base_table (item : string) (brand : option string) :
  fallback_base item brand
  = match category_base (lower item) with
    | Some b => b
    | None =>
        match brand with
        | Some b => if (lower b =? "ikea")%string then dec 35 0 else dec 30 0
        | None => dec 30 0
        end
    end.
Proof.
  unfold fallback_base, category_base.
  generalize (lower item). intros category.
  destruct (str_in category ["sofa"; "couch"; "sectional"]) eqn:Hsofa.
  - apply str_in_In in Hsofa. cbn in Hsofa.
    decompose [or] Hsofa; subst; reflexivity || contradiction.
  - destruct (str_in category ["table"; "dining table"]) eqn:Htable.
    + apply str_in_In in Htable. cbn in Htable.
      decompose [or] Htable; subst; reflexivity || contradiction.
    + destruct (str_in category ["chair"]); [reflexivity |].
      destruct brand as [b |]; [| reflexivity].
      unfold str_in. cbn [existsb]. rewrite Bool.orb_false_r.
      destruct (lower b =? "ikea")%string eqn:Hb; [| now rewrite Bool.andb_false_r].
      apply String.eqb_eq in Hb.
      destruct b; [discriminate Hb | reflexivity].
Qed.

Lemma lstrip_twice (s : string) : lstrip (lstrip s) = lstrip s.
Proof.
  induction s as [| c s IH]; [reflexivity |].
  cbn [lstrip]. destruct (is_space c) eqn:Hc; [exact IH |].
  cbn [lstrip]. now rewrite Hc.
Qed.

Lemma lstrip_head (s : string) :
  match lstrip s with
  | String c _ => is_space c = false
  | EmptyString => True
  end.
Proof.
  induction s as [| c s IH]; [exact I |].
  cbn [lstrip]. destruct (is_space c) eqn:Hc; [exact IH | exact Hc].
Qed.

Lemma rstrip_twice (s : string) : rstrip (rstrip s) = rstrip s.
Proof.
  induction s as [| c s IH]; [reflexivity |].
  cbn [rstrip]. destruct (rstrip s) as [| d t] eqn:Hr.
  - destruct (is_space c) eqn:Hc; [reflexivity |]. cbn [rstrip]. now rewrite Hc.
  - cbn [rstrip]. cbn [rstrip] in IH. rewrite IH. reflexivity.
Qed.

(** Trailing blanks are removed without touching a head that is not
    blank. *)
Lemma rstrip_keeps_head (c : ascii) (s : string) :
  is_space c = false -> exists t, rstrip (String c s) = String c t.
Proof.
  intros Hc. cbn [rstrip]. destruct (rstrip s) as [| d t].
  - rewrite Hc. now exists "".
  - now exists (String d t).
Qed.

Lemma strip_twice (s : string) : strip (strip s) = strip s.
Proof.
  unfold strip. pose proof (lstrip_head s) as Hh.
  destruct (lstrip s) as [| c u]; [reflexivity |].
  destruct (rstrip_keeps_head c u Hh) as [t Ht].
  assert (lstrip (rstrip (String c u)) = rstrip (String c u)) as ->.
  { rewrite Ht. cbn [lstrip]. now rewrite Hh. }
  apply rstrip_twice.
Qed.

Lemma strip_blank (s : string) : all_space s = true -> strip s = "".
Proof.
  intros H. unfold strip.
  replace s with (s ++ "") by apply append_empty_r.
  now rewrite (lstrip_spaces s "" H).
Qed.

(** X16. The item name [build_comps] works with is never empty; an item
    that is missing, empty or made of blanks becomes "item"; and the
    normalisation changes nothing when it is applied a second time. *)
Theorem normalize_item_stable :
  (forall item, normalize_item item <> "")
  /\ normalize_item None = "item"
  /\ (forall s, all_space s = true -> normalize_item (Some s) = "item")
  /\ (forall item, normalize_item (Some (normalize_item item)) = normalize_item item).
Proof.
  split; [| split; [| split]].
  - intros item. unfold normalize_item.
    destruct (strip (text_or_empty item)) eqn:E; cbn; discriminate.
  - reflexivity.
  - intros s Hs. unfold normalize_item. cbn [text_or_empty].
    now rewrite (strip_blank s Hs).
  - intros item. unfold normalize_item at 2 3.
    destruct (strip (text_or_empty item)) as [| c t] eqn:E; cbn [String.eqb].
    + reflexivity.
    + unfold normalize_item. cbn [text_or_empty].
      rewrite <- E, strip_twice, E. reflexivity.
Qed.

Lemma normalize_item_stable_witness :
  all_space "   " = true /\ normalize_item (Some "   ") = "item".
Proof.
  split; [reflexivity |].
  apply (proj1 (proj2 (proj2 normalize_item_stable)) "   "). reflexivity.
Defined.

(** ** Recommendation on the synthetic comps *)

Lemma usable_prices_all (comps : list Comp) :
  Forall (fun c => gtb (price c) pzero = true) comps ->
  usable_prices comps = map price comps.
Proof.
  unfold usable_prices. induction 1 as [| c comps Hc _ IH]; [reflexivity |].
  cbn [filter map]. rewrite Hc. cbn [map]. now rewrite IH.
Qed.

Lemma fallback_comps_positive (item : string) (brand : option string) :
  Forall (fun c => gtb (price c) pzero = true) (fallback_comps item brand).
Proof.
  pose proof (fallback_prices item brand) as H.
  apply Forall_map with (f := price) (P := fun p => gtb p pzero = true).
  destruct H as [<- | [<- | [<- | [<- | []]]]]; repeat constructor.
Qed.

Lemma fallback_deviation (rt : Runtime) (prices : list float) :
  rt = cpython_311 \/ rt = cpython_312 ->
  In prices
    [ [dec 255 1; dec 285 1; dec 315 1; dec 435 1];
      [dec 2975 2; dec 3325 2; dec 3675 2; dec 5075 2];
      [dec 102 0; dec 114 0; dec 126 0; dec 174 0];
      [dec 2125 1; dec 2375 1; dec 2625 1; dec 3625 1] ] ->
  exists p ps sd,
    prices = p :: ps
    /\ (3 <=? List.length (p :: ps))%nat = true
    /\ stdev_of rt (mean rt (p :: ps)) (p :: ps) = Ok sd.
Proof.
  intros [-> | ->] [<- | [<- | [<- | [<- | []]]]];
    do 3 eexists; (split; [reflexivity |]); (split; [reflexivity |]);
    vm_compute; reflexivity.
Qed.

(** The recommendation on the synthetic comps, on the reference
    runtimes. *)
Lemma fallback_recommendation (rt : Runtime) (item : string)
    (brand : option string) (expected_price : option float) :
  rt = cpython_311 \/ rt = cpython_312 ->
  exists r,
    recommend_price rt expected_price (fallback_comps item brand) = Ok r
    /\ confidence r = "medium"
    /\ leb (dec 1 0) (low r) = true.
Proof.
  intros Hrt.
  set (comps := fallback_comps item brand).
  pose proof (usable_prices_all comps (fallback_comps_positive _ _)) as Hu.
  pose proof (fallback_prices item brand) as Hp.
  fold comps in Hp.
  destruct (fallback_deviation rt (map price comps) Hrt Hp)
    as (p & ps & sd & Hprices & Hlen & Hsd).
  rewrite <- Hu in Hprices.
  unfold recommend_price. rewrite Hprices, Hsd. cbn [bind].
  eexists. split; [reflexivity |].
  cbn [low confidence]. split.
  - now rewrite Hlen.
  - apply low_floor, max2_band.
Qed.

(** X17. With live lookup switched off, the recommendation for the comps of
    [build_comps] is always returned, whatever the item, the brand and the
    expected price: the deviation of the synthetic prices does not
    overflow. It has confidence "medium" and a low of at least 1.0. *)
Theorem offline_recommendation (rt : Runtime) (key cx : string) (get : network)
    (item brand condition : option string) (expected_price : option float) :
  rt = cpython_311 \/ rt = cpython_312 ->
  exists comps r,
    build_comps (offline key cx) get item brand condition = Ok comps
    /\ recommend_price rt expected_price comps = Ok r
    /\ confidence r = "medium"
    /\ leb (dec 1 0) (low r) = true.
Proof.
  intros Hrt. rewrite build_comps_offline.
  destruct (fallback_recommendation rt (normalize_item item) brand expected_price Hrt)
    as (r & Hr & Hc & Hl).
  exists (fallback_comps (normalize_item item) brand), r. auto.
Qed.

Lemma offline_recommendation_witness :
  exists comps r,
    build_comps (offline "" "") net_timeout (Some "couch") (Some "Ikea") None = Ok comps
    /\ recommend_price cpython_312 (Some (dec 400 0)) comps = Ok r
    /\ confidence r = "medium"
    /\ leb (dec 1 0) (low r) = true.
Proof.
  apply (offline_recommendation cpython_312 "" "" net_timeout
           (Some "couch") (Some "Ikea") None (Some (dec 400 0))).
  now right.
Defined.

(** ** The endpoint *)

(** On texts and missing values, the call of the endpoint is the
    [build_comps] of the model above. *)
Lemma build_comps_any_text (bi : Builtins) (cfg : Config) (get : network)
    (item brand condition : option string) :
  build_comps_any bi cfg get (json_of_option item) (json_of_option brand)
    (json_of_option condition)
  = build_comps cfg get item brand condition.
Proof.
  unfold build_comps_any, build_comps.
  assert (match py_or (json_of_option item) (JStr "") with
          | JStr s => Ok (normalize_item (Some s))
          | _ => Raise AttributeError
          end = Ok (normalize_item item)) as ->.
  { destruct item as [[| c s] |]; reflexivity. }
  cbn [bind].
  assert ((if py_truthy (json_of_option brand)
           then text_of bi (json_of_option brand) ++ " " else "")
          = brand_part brand) as ->.
  { destruct brand as [[| c s] |]; reflexivity. }
  assert ((if py_truthy (json_of_option condition)
           then " " ++ text_of bi (json_of_option condition) else "")
          = cond_part condition) as ->.
  { destruct condition as [[| c s] |]; reflexivity. }
  change (live_comp_with (brand_part brand) (normalize_item item))
    with (live_comp (normalize_item item) brand).
  destruct (ENABLE_LIVE_COMPS cfg && configured cfg).
  - destruct (google_cse_search cfg get _ 5) as [results | e]; [| reflexivity].
    cbn [bind].
    destruct (for_each (live_comp (normalize_item item) brand) results) as [comps | e];
      [| reflexivity].
    cbn [bind].
    destruct (nonempty (if nonempty comps && all_zero comps then [] else comps));
      [reflexivity |].
    destruct brand as [b |]; reflexivity.
  - cbn [bind nonempty]. destruct brand as [b |]; reflexivity.
Qed.

(** With live lookup switched off, the call of the endpoint fails exactly
    on an item or a brand that is true and not a text. *)
Lemma build_comps_any_offline (bi : Builtins) (key cx : string) (get : network)
    (item brand condition : json) :
  build_comps_any bi (offline key cx) get item brand condition
  = match py_or item (JStr "") with
    | JStr s =>
        if text_or_false brand
        then Ok (fallback_comps (normalize_item (Some s)) (brand_of brand))
        else Raise AttributeError
    | _ => Raise AttributeError
    end.
Proof.
  unfold build_comps_any. cbn [offline ENABLE_LIVE_COMPS andb].
  destruct (py_or item (JStr "")); try reflexivity.
  cbn [bind nonempty].
  destruct brand as [| b | z | f | b | l | m]; cbn [text_or_false brand_of];
    try reflexivity;
    destruct (py_truthy _); reflexivity.
Qed.

Lemma details_item_truthy (d : list (string * json)) :
  py_truthy (details_item d) = true.
Proof.
  unfold details_item, py_or.
  destruct (py_truthy (dict_get d "item" JNull)) eqn:H1.
  - rewrite H1. exact H1.
  - destruct (py_truthy (dict_get d "category" JNull)) eqn:H2.
    + exact H2.
    + reflexivity.
Qed.

(** The body of the details path once the payload is parsed to an
    object. *)
Lemma agent_interpret_details (bi : Builtins) (rt : Runtime) (cfg : Config)
    (get : network) (msg : string) (d : list (string * json)) :
  String.prefix "DETAILS:" msg = true ->
  json_loads bi (drop 8 msg) = Ok (JObj d) ->
  agent_interpret bi rt cfg get msg
  = (comps <- build_comps_any bi cfg get (details_item d) (details_brand d)
               (dict_get d "condition" JNull) ;;
     rec <- recommend_price rt (safe_float_any bi (details_price d)) comps ;;
     Ok (SellItem (details_item d) (JObj d) JNull (Some comps) (Some rec))).
Proof.
  intros Hp Hl. unfold agent_interpret. rewrite Hp, Hl.
  cbn [bind py_get].
  unfold details_item, details_brand, details_price, py_or.
  destruct (py_truthy (dict_get d "item" JNull)); cbn [bind];
    destruct (py_truthy (dict_get d "price" JNull)); reflexivity.
Qed.

(** X18. The endpoint greets exactly when the message neither starts with
    "DETAILS:" nor contains "sell" in any letter case; a details message is
    never answered by a greeting or a form, whatever it contains. *)
Theorem greeting_iff (bi : Builtins) (rt : Runtime) (cfg : Config)
    (get : network) (msg : string) :
  (exists m, agent_interpret bi rt cfg get msg = Ok (Greeting m))
  <-> String.prefix "DETAILS:" msg = false /\ contains "sell" (lower msg) = false.
Proof.
  unfold agent_interpret.
  destruct (String.prefix "DETAILS:" msg) eqn:Hp.
  - split; [| intros [H _]; discriminate H].
    intros [m H]. exfalso.
    destruct (json_loads bi (drop 8 msg)) as [details | e]; [| discriminate H].
    cbn [bind] in H.
    destruct (py_get details "item" JNull) as [i1 | e]; [| discriminate H].
    cbn [bind] in H.
    destruct (if py_truthy i1 then Ok i1 else py_get details "category" JNull)
      as [i2 | e]; [| discriminate H].
    cbn [bind] in H.
    destruct (py_get details "brand" JNull) as [b | e]; [| discriminate H].
    cbn [bind] in H.
    destruct (py_get details "condition" JNull) as [c | e]; [| discriminate H].
    cbn [bind] in H.
    destruct (py_get details "price" JNull) as [p1 | e]; [| discriminate H].
    cbn [bind] in H.
    destruct (if py_truthy p1 then Ok p1 else py_get details "price_expectation" JNull)
      as [p2 | e]; [| discriminate H].
    cbn [bind] in H.
    destruct (build_comps_any bi cfg get (py_or i2 (JStr "item")) b c)
      as [comps | e]; [| discriminate H].
    cbn [bind] in H.
    destruct (recommend_price rt (safe_float_any bi p2) comps); discriminate H.
  - destruct (contains "sell" (lower msg)).
    + split; [intros [m H]; discriminate H | intros [_ H]; discriminate H].
    + split; [now split | intros _; now eexists].
Qed.

(** X19. A message that asks to sell is answered by a form without any
    search and without comps. The item prefilled is "chair", "table",
    "sofa" or "item", in this order of preference, a couch being a sofa,
    and the brand is "IKEA" or none; [build_comps] prices that item from
    35.0 for a chair, 120.0 for a table and 250.0 for a sofa. *)
Theorem sell_form (bi : Builtins) (rt : Runtime) (cfg : Config)
    (get : network) (msg : string) :
  String.prefix "DETAILS:" msg = false ->
  contains "sell" (lower msg) = true ->
  let text := lower msg in
  let item := detect_item text in
  let brand := detect_brand text in
  agent_interpret bi rt cfg get msg
  = Ok (SellItem (JStr item)
          (JObj [("brand", json_of_option brand); ("item", JStr item)])
          (JObj [("title", JStr (strip ("Details for " ++ brand_part brand ++ item)));
                 ("fields", form_fields);
                 ("prefill", JObj [("brand", json_of_option brand); ("item", JStr item)])])
          None None)
  /\ (contains "chair" text = true ->
      item = "chair" /\ fallback_base item brand = dec 35 0)
  /\ (contains "chair" text = false -> contains "table" text = true ->
      item = "table" /\ fallback_base item brand = dec 120 0)
  /\ (contains "chair" text = false -> contains "table" text = false ->
      contains "sofa" text = true \/ contains "couch" text = true ->
      item = "sofa" /\ fallback_base item brand = dec 250 0)
  /\ (contains "chair" text = false -> contains "table" text = false ->
      contains "sofa" text = false -> contains "couch" text = false ->
      item = "item")
  /\ (brand = Some "IKEA" <-> contains "ikea" text = true).
Proof.
  intros Hp Hs text item brand.
  split.
  { unfold agent_interpret. rewrite Hp, Hs. reflexivity. }
  subst item brand. unfold detect_item, detect_brand.
  split; [| split; [| split; [| split]]].
  - intros Hc. rewrite Hc.
    split; [reflexivity | destruct (contains "ikea" text); reflexivity].
  - intros Hc Ht. rewrite Hc, Ht.
    split; [reflexivity | destruct (contains "ikea" text); reflexivity].
  - intros Hc Ht Hso. rewrite Hc, Ht.
    assert (contains "sofa" text || contains "couch" text = true) as ->
      by (destruct Hso as [-> | ->]; [reflexivity | apply Bool.orb_true_r]).
    split; [reflexivity | destruct (contains "ikea" text); reflexivity].
  - intros Hc Ht Hso Hco. now rewrite Hc, Ht, Hso, Hco.
  - destruct (contains "ikea" text); split; intros H; reflexivity || discriminate H.
Qed.

Lemma sell_form_witness :
  exists form,
    agent_interpret (sample_builtins "" JNull) cpython_312 live_cfg net_timeout
      "I want to SELL my Ikea couch and a table"
    = Ok (SellItem (JStr "table")
            (JObj [("brand", JStr "IKEA"); ("item", JStr "table")]) form None None).
Proof.
  destruct (sell_form (sample_builtins "" JNull) cpython_312 live_cfg net_timeout
              "I want to SELL my Ikea couch and a table" eq_refl eq_refl)
    as [H _].
  eexists. exact H.
Defined.

(** X20. A details message whose payload does not parse raises the error
    of the parser, and one whose payload parses to something else than an
    object raises [AttributeError]: the endpoint has no reply for them. *)
Theorem details_payload_errors (bi : Builtins) (rt : Runtime) (cfg : Config)
    (get : network) (msg : string) :
  String.prefix "DETAILS:" msg = true ->
  (forall e, json_loads bi (drop 8 msg) = Raise e ->
             agent_interpret bi rt cfg get msg = Raise e)
  /\ (forall v, json_loads bi (drop 8 msg) = Ok v ->
                (forall d, v <> JObj d) ->
                agent_interpret bi rt cfg get msg = Raise AttributeError).
Proof.
  intros Hp. unfold agent_interpret. rewrite Hp. split.
  - intros e ->. reflexivity.
  - intros v -> Hv. cbn [bind].
    destruct v; try reflexivity. now destruct (Hv m).
Qed.

Lemma details_payload_errors_witness :
  agent_interpret (sample_builtins "[1, 2]" (JArr [JInt 1; JInt 2])) cpython_312
    live_cfg net_timeout "DETAILS:[1, 2]" = Raise AttributeError
  /\ agent_interpret (sample_builtins "[1, 2]" (JArr [JInt 1; JInt 2])) cpython_312
       live_cfg net_timeout "DETAILS:{oops" = Raise JSONDecodeError.
Proof.
  split.
  - destruct (details_payload_errors (sample_builtins "[1, 2]" (JArr [JInt 1; JInt 2]))
                cpython_312 live_cfg net_timeout "DETAILS:[1, 2]" eq_refl) as [_ H].
    apply (H (JArr [JInt 1; JInt 2])); [reflexivity | discriminate].
  - destruct (details_payload_errors (sample_builtins "[1, 2]" (JArr [JInt 1; JInt 2]))
                cpython_312 live_cfg net_timeout "DETAILS:{oops" eq_refl) as [H _].
    apply H. reflexivity.
Defined.

(** X21. With live lookup switched off, a details message whose payload
    is an object is answered exactly when its item and its brand are texts
    or false values; the answer then has the four synthetic comps for that
    item and brand, and the recommendation for the price read under
    "price", or under "price_expectation" when that one is false, with
    confidence "medium". Otherwise [AttributeError] is raised. The
    condition plays no part. *)
Theorem details_offline (bi : Builtins) (rt : Runtime) (key cx : string)
    (get : network) (msg : string) (d : list (string * json)) :
  rt = cpython_311 \/ rt = cpython_312 ->
  String.prefix "DETAILS:" msg = true ->
  json_loads bi (drop 8 msg) = Ok (JObj d) ->
  match details_item d with
  | JStr s =>
      if text_or_false (details_brand d) then
        exists r,
          agent_interpret bi rt (offline key cx) get msg
          = Ok (SellItem (JStr s) (JObj d) JNull
                  (Some (fallback_comps (normalize_item (Some s))
                           (brand_of (details_brand d))))
                  (Some r))
          /\ recommend_price rt (safe_float_any bi (details_price d))
               (fallback_comps (normalize_item (Some s)) (brand_of (details_brand d)))
             = Ok r
          /\ confidence r = "medium"
      else agent_interpret bi rt (offline key cx) get msg = Raise AttributeError
  | _ => agent_interpret bi rt (offline key cx) get msg = Raise AttributeError
  end.
Proof.
  intros Hrt Hp Hl.
  rewrite (agent_interpret_details bi rt _ get msg d Hp Hl).
  rewrite build_comps_any_offline.
  pose proof (details_item_truthy d) as Ht.
  destruct (details_item d) as [| b | z | f | s | l | m];
    unfold py_or; rewrite Ht; try reflexivity.
  destruct (text_or_false (details_brand d)); [| reflexivity].
  cbn [bind].
  destruct (fallback_recommendation rt (normalize_item (Some s))
              (brand_of (details_brand d)) (safe_float_any bi (details_price d)) Hrt)
    as (r & Hr & Hc & _).
  exists r. rewrite Hr. cbn [bind]. auto.
Qed.

Lemma details_offline_witness :
  exists r,
    agent_interpret (sample_builtins "{...}" (JObj sample_details)) cpython_312
      (offline "" "") net_timeout "DETAILS:{...}"
    = Ok (SellItem (JStr "sofa") (JObj sample_details) JNull
            (Some (fallback_comps "sofa" (Some "IKEA"))) (Some r))
    /\ recommended_price r = dec 1975 1.
Proof.
  pose proof (details_offline (sample_builtins "{...}" (JObj sample_details))
                cpython_312 "" "" net_timeout "DETAILS:{...}" sample_details
                (or_intror eq_refl) eq_refl eq_refl) as H.
  change (details_item sample_details) with (JStr "sofa") in H.
  change (text_or_false (details_brand sample_details)) with true in H.
  cbv iota in H. destruct H as (r & Ha & Hr & _).
  exists r. split; [exact Ha |].
  vm_compute in Hr. injection Hr as <-. vm_compute. reflexivity.
Defined.

(** ** More on the search and on the text before a price *)

Lemma for_each_not_object (l : list json) :
  Exists (fun it => forall m, it <> JObj m) l ->
  for_each (fun it =>
              title <- py_get it "title" JNull ;;
              link <- py_get it "link" JNull ;;
              snippet <- py_get it "snippet" (JStr "") ;;
              Ok {| sr_title := title; sr_url := link; sr_snippet := snippet |})
    l
  = Raise AttributeError.
Proof.
  induction l as [| it l IH]; intros H; [inversion H |].
  cbn [for_each].
  destruct it as [| b | z | f | s | a | m]; try reflexivity.
  cbn [py_get bind].
  rewrite IH; [reflexivity |].
  inversion H as [x l' Hx | x l' Hx]; subst; [| exact Hx].
  now destruct (Hx m).
Qed.

(** X22. The search returns all the items or none: when one item of the
    list under "items" is not an object, the whole search raises
    [AttributeError], and so does [build_comps]. *)
Theorem google_cse_search_all_or_nothing (cfg : Config) (get : network)
    (query : string) (num : Z) (status : Z)
    (payload : list (string * json)) (items : list json) :
  configured cfg = true ->
  get (cse_request cfg query num) = Response status (Some (JObj payload)) ->
  ~ 400 <= status < 600 ->
  dict_get payload "items" (JArr []) = JArr items ->
  Exists (fun it => forall m, it <> JObj m) items ->
  google_cse_search cfg get query num = Raise AttributeError.
Proof.
  intros Hc Hget Hst Hitems Hbad.
  rewrite google_cse_search_unfold, Hc, Hget. cbn [negb].
  unfold raise_for_status.
  destruct ((400 <=? status) && (status <? 600)) eqn:E.
  { apply andb_prop in E. destruct E as [Hlo Hhi].
    apply Z.leb_le in Hlo. apply Z.ltb_lt in Hhi. lia. }
  cbn [bind response_json py_get]. rewrite Hitems.
  destruct items as [| it items]; [inversion Hbad |].
  cbn [py_or py_truthy py_iter bind].
  now apply for_each_not_object.
Qed.

Lemma google_cse_search_all_or_nothing_witness :
  google_cse_search live_cfg
    (net_json (JObj [("items", JArr [JObj [("title", JStr "Desk $40")]; JStr "oops"])]))
    "desk price" 5
  = Raise AttributeError.
Proof.
  apply (google_cse_search_all_or_nothing live_cfg _ "desk price" 5 200
           [("items", JArr [JObj [("title", JStr "Desk $40")]; JStr "oops"])]
           [JObj [("title", JStr "Desk $40")]; JStr "oops"]);
    [reflexivity | reflexivity | lia | reflexivity |].
  apply Exists_cons_tl, Exists_cons_hd. discriminate.
Defined.

(** X23. [build_comps] uses the network for one request at most: the
    search for "<brand> <item> <condition> price", absent parts left out,
    asking for 5 results. Networks that answer this request alike give
    the same comps. *)
Theorem build_comps_one_request (cfg : Config) (get get' : network)
    (item brand condition : option string) :
  get (cse_request cfg
         (brand_part brand ++ normalize_item item ++ cond_part condition ++ " price") 5)
  = get' (cse_request cfg
            (brand_part brand ++ normalize_item item ++ cond_part condition ++ " price") 5) ->
  build_comps cfg get item brand condition
  = build_comps cfg get' item brand condition.
Proof.
  intros H. unfold build_comps.
  destruct (ENABLE_LIVE_COMPS cfg && configured cfg); [| reflexivity].
  rewrite !google_cse_search_unfold, H. reflexivity.
Qed.

Lemma build_comps_one_request_witness :
  build_comps live_cfg
    (fun r => if (req_q r =? "IKEA sofa used price")%string
              then Response 200 (Some unpriced_items) else NetFail Timeout)
    (Some " sofa ") (Some "IKEA") (Some "used")
  = build_comps live_cfg (net_json unpriced_items)
      (Some " sofa ") (Some "IKEA") (Some "used").
Proof.
  apply build_comps_one_request. reflexivity.
Defined.

Lemma remove_char_append (c : ascii) (a b : string) :
  remove_char c (a ++ b) = remove_char c a ++ remove_char c b.
Proof.
  induction a as [| x a IH]; [reflexivity |].
  cbn [append remove_char]. destruct (Ascii.eqb x c); cbn [append]; now rewrite IH.
Qed.

(** X24. What stands before the first digit of a text never changes the
    price found: words, currency signs and a minus sign are skipped
    alike, so that "-45" is read as 45. *)
Theorem extract_price_skips_prefix (pre s : string) :
  no_digit pre = true ->
  extract_price_from_text (JStr (pre ++ s)) = extract_price_from_text (JStr s).
Proof.
  intros Hpre.
  rewrite !extract_price_first_number, remove_char_append.
  rewrite first_number_skip; [reflexivity |].
  now rewrite no_digit_without_commas.
Qed.

Lemma extract_price_skips_prefix_witness :
  extract_price_from_text (JStr "-45") = Ok (Some (dec 45 0))
  /\ extract_price_from_text (JStr "was EUR -45") = Ok (Some (dec 45 0)).
Proof.
  split.
  - change (JStr "-45") with (JStr ("-" ++ "45")).
    rewrite (extract_price_skips_prefix "-" "45"); reflexivity.
  - change (JStr "was EUR -45") with (JStr ("was EUR -" ++ "45")).
    rewrite (extract_price_skips_prefix "was EUR -" "45"); reflexivity.
Defined.

(** X25. The endpoint handles no failure of the search: with live lookup
    configured, a details message whose item is a text is answered by the
    exception of the request (timeout, connection failure) or by the
    [HTTPError] of an error status, and never by synthetic comps. *)
Theorem endpoint_propagates_search_failure (bi : Builtins) (rt : Runtime)
    (cfg : Config) (get : network) (msg : string)
    (d : list (string * json)) (s : string) :
  String.prefix "DETAILS:" msg = true ->
  json_loads bi (drop 8 msg) = Ok (JObj d) ->
  details_item d = JStr s ->
  ENABLE_LIVE_COMPS cfg = true ->
  configured cfg = true ->
  (forall e, get (cse_request cfg (details_query bi d s) 5) = NetFail e ->
             agent_interpret bi rt cfg get msg = Raise e)
  /\ (forall status body,
        get (cse_request cfg (details_query bi d s) 5) = Response status body ->
        400 <= status < 600 ->
        agent_interpret bi rt cfg get msg = Raise (HTTPError status)).
Proof.
  intros Hp Hl Hi He Hc.
  rewrite (agent_interpret_details bi rt cfg get msg d Hp Hl), Hi.
  unfold build_comps_any.
  assert (py_or (JStr s) (JStr "") = JStr s \/ (s = "" /\ py_or (JStr s) (JStr "") = JStr ""))
    as Hs by (destruct s; [right | left]; auto).
  assert (match py_or (JStr s) (JStr "") with
          | JStr t => Ok (normalize_item (Some t))
          | _ => Raise AttributeError
          end = Ok (normalize_item (Some s))) as ->.
  { destruct Hs as [-> | [-> ->]]; reflexivity. }
  cbn [bind]. rewrite He, Hc. cbn [andb].
  fold (details_brand_text bi d). fold (details_query bi d s).
  rewrite google_cse_search_unfold, Hc. cbn [negb].
  split.
  - intros e ->. reflexivity.
  - intros status body -> [Hlo Hhi]. unfold raise_for_status.
    apply Z.leb_le in Hlo. apply Z.ltb_lt in Hhi. rewrite Hlo, Hhi.
    reflexivity.
Qed.

Lemma endpoint_propagates_search_failure_witness :
  agent_interpret (sample_builtins "{...}" (JObj desk_details)) cpython_312
    live_cfg
    (fun r => if (req_q r =? "IKEA desk price")%string
              then NetFail Timeout else Response 200 (Some unpriced_items))
    "DETAILS:{...}"
  = Raise Timeout.
Proof.
  destruct (endpoint_propagates_search_failure
              (sample_builtins "{...}" (JObj desk_details)) cpython_312
              live_cfg
              (fun r => if (req_q r =? "IKEA desk price")%string
                        then NetFail Timeout else Response 200 (Some unpriced_items))
              "DETAILS:{...}" desk_details "desk "
              eq_refl eq_refl eq_refl eq_refl eq_refl) as [H _].
  apply H. reflexivity.
Defined.

Lemma item_text_normalized (s : string) :
  match py_or (JStr s) (JStr "") with
  | JStr t => Ok (normalize_item (Some t))
  | _ => @Raise string AttributeError
  end = Ok (normalize_item (Some s)).
Proof. destruct s; reflexivity. Qed.

(** X26. A live lookup that prices nothing changes nothing: when the
    search of a details message returns results of which none yields a
    price other than 0.0 (or returns no result), the endpoint answers as it
    does with live lookup switched off. *)
Theorem endpoint_unpriced_results (bi : Builtins) (rt : Runtime)
    (cfg : Config) (get : network) (msg : string)
    (d : list (string * json)) (s : string)
    (results : list search_result) (comps : list Comp) :
  String.prefix "DETAILS:" msg = true ->
  json_loads bi (drop 8 msg) = Ok (JObj d) ->
  details_item d = JStr s ->
  google_cse_search cfg get (details_query bi d s) 5 = Ok results ->
  for_each (live_comp_with (details_brand_text bi d) (normalize_item (Some s))) results
  = Ok comps ->
  all_zero comps = true ->
  agent_interpret bi rt cfg get msg
  = agent_interpret bi rt (offline (GOOGLE_CSE_API_KEY cfg) (GOOGLE_CSE_CX cfg)) get msg.
Proof.
  intros Hp Hl Hi Hs Hc Hz.
  rewrite !(agent_interpret_details bi rt _ get msg d Hp Hl), Hi.
  f_equal. unfold build_comps_any.
  rewrite item_text_normalized. cbn [bind].
  fold (details_brand_text bi d). fold (details_query bi d s).
  cbn [offline ENABLE_LIVE_COMPS andb bind nonempty].
  destruct (ENABLE_LIVE_COMPS cfg && configured cfg); [| reflexivity].
  rewrite Hs. cbn [bind]. rewrite Hc. cbn [bind]. rewrite Hz.
  destruct comps; reflexivity.
Qed.

Lemma endpoint_unpriced_results_witness :
  agent_interpret (sample_builtins "{...}" (JObj desk_details)) cpython_312
    live_cfg (net_json unpriced_items) "DETAILS:{...}"
  = agent_interpret (sample_builtins "{...}" (JObj desk_details)) cpython_312
      (offline "key" "cx") (net_json unpriced_items) "DETAILS:{...}".
Proof.
  eapply (endpoint_unpriced_results
            (sample_builtins "{...}" (JObj desk_details)) cpython_312
            live_cfg (net_json unpriced_items) "DETAILS:{...}" desk_details "desk ");
    [ reflexivity | reflexivity | reflexivity
    | vm_compute; reflexivity | vm_compute; reflexivity | reflexivity ].
Defined.
